(** * cache_size_vs_speedup.py: the benchmark post-processor, embedded and verified

    The script scans a directory of [exp_<CACHE_SIZE>_<sw|hw>.txt] logs, pulls
    the mixgraph run time out of each, pairs software and hardware runs per
    cache size and plots the difference.

    Layout of this development:
    - [Py]: the Python builtins and library calls the script relies on
      ([int], [float], [/] on ints, [math.log2], [str.upper], [sorted]);
    - [Re]: the fragment of [re] the two patterns use, as a backtracking
      matcher with capture groups;
    - the script itself, function by function, in a writer/exception monad
      whose trace records every [print], [open] and [plt.*] call;
    - the properties.

    Characters are Rocq's 8-bit [ascii], read as code points below 256.
    Floats are the kernel's binary64 [float], which is Python's [float]. *)

From Stdlib Require Import ZArith String Ascii List Lia.
From Stdlib Require Import Floats.PrimFloat Floats.SpecFloat Floats.FloatOps
  Floats.FloatAxioms.
From stdpp Require Import base option list gmap strings sorting pretty.

Open Scope string_scope.
Open Scope list_scope.
Open Scope Z_scope.

(** ** Exceptions and results *)

(** The exception classes that can surface in the script.  All of them
    derive from [Exception]. *)
Inductive exn : Type :=
  | ValueError
  | OverflowError
  | ZeroDivisionError
  | OSError
  | UnicodeDecodeError.

Inductive result (A : Type) : Type :=
  | Ok (a : A)
  | Raise (e : exn).
Arguments Ok {A} a.
Arguments Raise {A} e.

(** ** Python builtins *)
Module Py.

Definition is_digit (c : ascii) : bool :=
  let n := N_of_ascii c in ((48 <=? n) && (n <=? 57))%N.

Definition digit_value (c : ascii) : Z := Z.of_N (N_of_ascii c) - 48.

(** [str.isspace] on one character, for code points below 256: the ASCII
    white space 9-13, 28-32, and NEL (0x85) and NBSP (0xA0). *)
Definition is_space (c : ascii) : bool :=
  let n := N_of_ascii c in
  (((9 <=? n) && (n <=? 13)) || ((28 <=? n) && (n <=? 32))
   || (n =? 133) || (n =? 160))%N.

(** [all(p(c) for c in s)] *)
Fixpoint all_chars (p : ascii -> bool) (s : string) : bool :=
  match s with
  | EmptyString => true
  | String c s' => p c && all_chars p s'
  end.

Definition all_digits (s : string) : bool := all_chars is_digit s.

(** Decimal value of a digit string, most significant digit first. *)
Fixpoint digits_value (acc : Z) (s : string) : Z :=
  match s with
  | EmptyString => acc
  | String c s' => digits_value (10 * acc + digit_value c) s'
  end.

(** [int(s)] for the strings the script passes: a run of decimal digits.
    An empty string or any other character is a [ValueError].  (The
    interpreter's cap on the length of a decimal literal, 4300 digits by
    default, is beyond the length of any file name and is left out.) *)
Definition int_of_str (s : string) : result Z :=
  match s with
  | EmptyString => Raise ValueError
  | _ => if all_digits s then Ok (digits_value 0 s) else Raise ValueError
  end.

(** An integer as an exact (unrounded) binary float. *)
Definition Z2SF (n : Z) : spec_float :=
  match n with
  | Z0 => S754_zero false
  | Zpos p => S754_finite false p 0
  | Zneg p => S754_finite true p 0
  end.

Definition is_inf (x : spec_float) : bool :=
  match x with S754_infinity _ => true | _ => false end.

(** [a / b] on ints: the quotient correctly rounded to binary64 (ties to
    even); [ZeroDivisionError] for [b = 0], [OverflowError] when the
    quotient is beyond the largest float. *)
Definition truediv (a b : Z) : result float :=
  if b =? 0 then Raise ZeroDivisionError
  else
    let q := SFdiv prec emax (Z2SF a) (Z2SF b) in
    if is_inf q then Raise OverflowError else Ok (SF2Prim q).

(** Conversion of an int to a float (C's [PyLong_AsDouble]): round to
    nearest, ties to even; [OverflowError] beyond the largest float. *)
Definition float_of_int (n : Z) : result float :=
  let x := binary_normalize prec emax n 0 false in
  if is_inf x then Raise OverflowError else Ok (SF2Prim x).

(** [float(s)] for the strings the capture class [[\d\.]+] admits: digits
    with at most one dot and at least one digit, read as a decimal
    fraction and correctly rounded; anything else is a [ValueError]. *)
Fixpoint split_dot (s : string) : string * option string :=
  match s with
  | EmptyString => (EmptyString, None)
  | String c s' =>
      if Ascii.eqb c "." then (EmptyString, Some s')
      else let '(i, f) := split_dot s' in (String c i, f)
  end.

Definition float_of_str (s : string) : result float :=
  let '(ipart, frac) := split_dot s in
  let fpart := default EmptyString frac in
  if all_digits ipart && all_digits fpart
     && negb (String.length ipart + String.length fpart =? 0)%nat
  then
    let n := digits_value 0 (ipart +:+ fpart) in
    let d := 10 ^ Z.of_nat (String.length fpart) in
    Ok (SF2Prim (SFdiv prec emax (Z2SF n) (Z2SF d)))
  else Raise ValueError.

(** [str.upper], on the ASCII letters. *)
Definition upper_char (c : ascii) : ascii :=
  let n := N_of_ascii c in
  if ((97 <=? n) && (n <=? 122))%N then ascii_of_N (n - 32) else c.

Fixpoint upper (s : string) : string :=
  match s with
  | EmptyString => EmptyString
  | String c s' => String (upper_char c) (upper s')
  end.

(** [sorted] on a list of ints. *)
Definition sorted (l : list Z) : list Z := merge_sort Z.le l.

(** [str(n)] / [f"{n}"] for an int. *)
Definition str_of_int (n : Z) : string := pretty n.

(** [os.path.join(d, name)] for a relative [name]. *)
Definition path_join (d name : string) : string := d +:+ "/" +:+ name.

(** *** [math.log2] on an int

    CPython rejects a non-positive int with [ValueError], converts the int
    to a double and hands it to the C library's [log2]; an int too large
    for a double is first split as [x * 2^e] with [0.5 <= x < 1]
    ([_PyLong_Frexp]) and the result is [log2(x) + log2(2.0) * e].  The C
    function itself is a parameter. *)
Section Log2.
Variable libm_log2 : float -> float.

(** [_PyLong_Frexp]: mantissa in [[0.5, 1)], rounded to 53 bits, and
    exponent. *)
Definition long_frexp (n : Z) : float * Z :=
  let e := Z.log2 n + 1 in
  let x := SF2Prim (binary_normalize prec emax n (- e) false) in
  if PrimFloat.eqb x 1 then (0.5%float, e + 1) else (x, e).

(** The result for a positive int. *)
Definition log2_positive (n : Z) : float :=
  match float_of_int n with
  | Ok x => libm_log2 x
  | Raise _ =>
      let '(x, e) := long_frexp n in
      (libm_log2 x
       + libm_log2 2 * SF2Prim (binary_normalize prec emax e 0 false))%float
  end.

Definition log2 (n : Z) : result float :=
  if n <=? 0 then Raise ValueError else Ok (log2_positive n).
End Log2.

End Py.

(** ** The fragment of [re] the script uses *)
Module Re.

(** Patterns: literals, one-character classes, greedy [*] and [+] over a
    one-character class, [$], alternation, numbered capture groups and
    concatenation. *)
Inductive regex : Type :=
  | Eps
  | Lit (c : ascii)
  | Star (p : ascii -> bool)
  | Plus (p : ascii -> bool)
  | Eol
  | Alt (r1 r2 : regex)
  | Grp (n : nat) (r : regex)
  | Cat (r1 r2 : regex).

(** A literal string. *)
Fixpoint lit (s : string) : regex :=
  match s with
  | EmptyString => Eps
  | String c s' => Cat (Lit c) (lit s')
  end.

(** The captured groups of a match. *)
Abbreviation groups := (gmap nat string).

(** [$] (without MULTILINE): at the end of the string, or just before a
    newline that ends the string. *)
Definition at_eol (s : string) : bool :=
  match s with
  | EmptyString => true
  | String c EmptyString => Ascii.eqb c "010"
  | _ => false
  end.

(** Greedy repetition of a class: take as many characters as possible and
    give them back one by one while the rest of the pattern fails. *)
Fixpoint star {A} (p : ascii -> bool) (s : string) (k : string -> option A)
  : option A :=
  match s with
  | String c s' =>
      if p c then
        match star p s' k with
        | Some r => Some r
        | None => k s
        end
      else k s
  | EmptyString => k s
  end.

(** The part of [s] consumed when [rest] is what remains of it. *)
Definition consumed (s rest : string) : string :=
  substring 0 (String.length s - String.length rest) s.

(** Backtracking matcher: [run r s g k] matches [r] at the start of [s]
    with groups [g] so far and passes what remains to [k]; the first
    success in Python's order of preference is the result. *)
Fixpoint run (r : regex) (s : string) (g : groups)
    (k : string -> groups -> option groups) : option groups :=
  match r with
  | Eps => k s g
  | Lit c =>
      match s with
      | String c' s' => if Ascii.eqb c c' then k s' g else None
      | EmptyString => None
      end
  | Star p => star p s (fun s' => k s' g)
  | Plus p =>
      match s with
      | String c s' => if p c then star p s' (fun s'' => k s'' g) else None
      | EmptyString => None
      end
  | Eol => if at_eol s then k s g else None
  | Alt r1 r2 =>
      match run r1 s g k with
      | Some g' => Some g'
      | None => run r2 s g k
      end
  | Grp n r' => run r' s g (fun s' g' => k s' (<[n := consumed s s']> g'))
  | Cat r1 r2 => run r1 s g (fun s' g' => run r2 s' g' k)
  end.

(** [re.match]: the pattern must match at the start of the string. *)
Definition rematch (r : regex) (s : string) : option groups :=
  run r s ∅ (fun _ g => Some g).

(** [re.search]: the leftmost position at which the pattern matches. *)
Fixpoint search (r : regex) (s : string) : option groups :=
  match rematch r s with
  | Some g => Some g
  | None =>
      match s with
      | String _ s' => search r s'
      | EmptyString => None
      end
  end.

(** [m.group(n)] for a group that took part in the match. *)
Definition group (g : groups) (n : nat) : string := g !!! n.

End Re.

(** ** Configuration *)

Definition OUTPUT_DIR : string := "./experiment_results".

Definition digit_or_dot (c : ascii) : bool := Py.is_digit c || Ascii.eqb c ".".

Declare Scope regex_scope.
Delimit Scope regex_scope with re.
Infix "⋅" := Re.Cat (at level 60, right associativity) : regex_scope.

(** [r'exp_(\d+)_(sw|hw)\.txt$'] *)
Definition FILENAME_REGEX : Re.regex :=
  (Re.lit "exp_" ⋅ Re.Grp 1 (Re.Plus Py.is_digit) ⋅ Re.lit "_"
   ⋅ Re.Grp 2 (Re.Alt (Re.lit "sw") (Re.lit "hw")) ⋅ Re.lit ".txt" ⋅ Re.Eol)%re.

(** [r'mixgraph\s*:\s*[\d\.]+\s*micros/op\s*[\d\.]+\s*ops/sec\s*([\d\.]+)\s*seconds'] *)
Definition MIXGRAPH_TIME_REGEX : Re.regex :=
  (Re.lit "mixgraph" ⋅ Re.Star Py.is_space ⋅ Re.lit ":" ⋅ Re.Star Py.is_space
   ⋅ Re.Plus digit_or_dot ⋅ Re.Star Py.is_space ⋅ Re.lit "micros/op"
   ⋅ Re.Star Py.is_space ⋅ Re.Plus digit_or_dot ⋅ Re.Star Py.is_space
   ⋅ Re.lit "ops/sec" ⋅ Re.Star Py.is_space ⋅ Re.Grp 1 (Re.Plus digit_or_dot)
   ⋅ Re.Star Py.is_space ⋅ Re.lit "seconds")%re.

(** ** Observable effects *)

(** The lines the script prints, one constructor per [print] call, with
    the values interpolated into the f-string. *)
Inductive message : Type :=
  | MsgSkipping (filename : string)
      (* Skipping unrecognized file format: {filename} *)
  | MsgParsed (mode : string) (cache_size : Z) (run_time_seconds : float)
      (* Parsed {MODE} run time for cache size {cache_size} bytes: ... *)
  | MsgNoRunTime (filename : string)
      (* Could not find mixgraph run time in file: {filename} *)
  | MsgReadError (filename : string) (e : exn)
      (* Error reading file {filename}: {e} *)
  | MsgDifference (cache_size : Z) (mb sw_time hw_time difference : float)
      (* Cache Size: ... - SW Time: ..., HW Time: ..., Difference: ... *)
  | MsgMissing (cache_size : Z)
      (* Missing SW or HW data for cache size {cache_size} bytes. Skipping. *)
  | MsgNoComplete
      (* No complete data to plot. *)
  | MsgPlotSaved (plot_filename : string)
      (* Plot saved as {plot_filename} *)
  | MsgNoDirectory (dir : string)
      (* Output directory '{OUTPUT_DIR}' does not exist. *)
  | MsgParsing
      (* Parsing experiment output files... *)
  | MsgNoValidData
      (* No valid experiment data found. *)
  | MsgPlotting
      (* Plotting time differences with log2(Cache Size)... *)
  | MsgDone.
      (* Done. *)

(** The calls into [matplotlib.pyplot]. *)
Inductive plt_call : Type :=
  | Figure (width height : Z)
  | Plot (xs ys : list float)
  | Title (s : string)
  | Xlabel (s : string)
  | Ylabel (s : string)
  | Grid
  | Axhline (y : Z)
  | Xticks (positions : list float) (labels : list string) (rotation : Z)
  | TightLayout
  | Savefig (plot_filename : string)
  | Show.

Inductive event : Type :=
  | Print (m : message)
  | Open (filepath : string)
  | Plt (c : plt_call).

(** A computation: the events it emitted, in order, and how it ended. *)
Record io (A : Type) : Type := IO { trace : list event; outcome : result A }.
Arguments IO {A} trace outcome.
Arguments trace {A} _.
Arguments outcome {A} _.

#[global] Instance io_ret : MRet io := fun A a => IO [] (Ok a).

#[global] Instance io_bind : MBind io := fun A B f m =>
  match outcome m with
  | Ok a => IO (trace m ++ trace (f a)) (outcome (f a))
  | Raise e => IO (trace m) (Raise e)
  end.

Definition emit (e : event) : io unit := IO [e] (Ok tt).
Definition print (m : message) : io unit := emit (Print m).
Definition plt (c : plt_call) : io unit := emit (Plt c).

(** A pure library call that may raise. *)
Definition lift {A} (r : result A) : io A := IO [] r.

(** [try: body  except Exception as e: handler e]. *)
Definition try_except {A} (body : io A) (handler : exn -> io A) : io A :=
  match outcome body with
  | Ok a => body
  | Raise e => IO (trace body ++ trace (handler e)) (outcome (handler e))
  end.

(** [for x in xs: s = body s x], stopping at the first exception. *)
Fixpoint for_each {A S} (xs : list A) (body : S -> A -> io S) (s : S) : io S :=
  match xs with
  | [] => mret s
  | x :: xs' => s' ← body s x; for_each xs' body s'
  end.

(** [[f x for x in xs]]. *)
Fixpoint comprehension {A B} (f : A -> io B) (xs : list A) : io (list B) :=
  match xs with
  | [] => mret []
  | x :: xs' => y ← f x; ys ← comprehension f xs'; mret (y :: ys)
  end.

(** The exit status of the interpreter once [main()] has ended: an
    uncaught exception prints a traceback and exits with status 1. *)
Definition exit_code {A} (r : result A) : Z :=
  match r with Ok _ => 0 | Raise _ => 1 end.

(** ** The file system as the script sees it *)

(** What [open(filepath, 'r')] followed by [file.read()] gives for a
    directory entry: the text, or the exception raised on the way. *)
Abbreviation file := (result string).

(** [os.listdir(output_dir)], in the order the system lists the entries,
    each with its file. *)
Abbreviation listing := (list (string * file)).

(** [{ cache_size_in_bytes: {'sw': sw_time, 'hw': hw_time} }] *)
Abbreviation experiment_table := (gmap Z (gmap string float)).

(** ** Parsing function *)

(** One iteration of the loop of [parse_experiment_files]. *)
Definition parse_file (output_dir : string) (experiment_data : experiment_table)
    (entry : string * file) : io experiment_table :=
  let filename := entry.1 in
  let filepath := Py.path_join output_dir filename in
  match Re.rematch FILENAME_REGEX filename with
  | None =>
      print (MsgSkipping filename);;
      mret experiment_data
  | Some m =>
      let cache_size_str := Re.group m 1 in
      let compression_type := Re.group m 2 in
      cache_size ← lift (Py.int_of_str cache_size_str);
      let experiment_data :=
        match experiment_data !! cache_size with
        | Some _ => experiment_data
        | None => <[cache_size := ∅]> experiment_data
        end in
      try_except
        (emit (Open filepath);;
         content ← lift entry.2;
         match Re.search MIXGRAPH_TIME_REGEX content with
         | Some time_match =>
             run_time_seconds ← lift (Py.float_of_str (Re.group time_match 1));
             let experiment_data :=
               <[cache_size :=
                   <[compression_type := run_time_seconds]>
                     (experiment_data !!! cache_size)]> experiment_data in
             print (MsgParsed (Py.upper compression_type) cache_size
                      run_time_seconds);;
             mret experiment_data
         | None =>
             print (MsgNoRunTime filename);;
             mret experiment_data
         end)
        (fun e =>
           print (MsgReadError filename e);;
           mret experiment_data)
  end.

Definition parse_experiment_files (output_dir : string) (dir : listing)
    : io experiment_table :=
  for_each dir (parse_file output_dir) ∅.

(** ** Plotting functions *)

Definition plot_filename : string := "absolute_iaa_speedup.png".

(** One iteration of the loop of [plot_time_differences]; the state is
    [(cache_sizes, time_differences)]. *)
Definition linear_step (experiment_data : experiment_table)
    (acc : list float * list float) (cache_size : Z)
    : io (list float * list float) :=
  let '(cache_sizes, time_differences) := acc in
  let data := experiment_data !!! cache_size in
  match data !! "sw", data !! "hw" with
  | Some sw_time, Some hw_time =>
      let difference := (sw_time - hw_time)%float in
      mb ← lift (Py.truediv cache_size (1024 * 1024));
      let cache_sizes := cache_sizes ++ [mb] in
      let time_differences := time_differences ++ [difference] in
      mb' ← lift (Py.truediv cache_size (1024 * 1024));
      print (MsgDifference cache_size mb' sw_time hw_time difference);;
      mret (cache_sizes, time_differences)
  | _, _ =>
      print (MsgMissing cache_size);;
      mret acc
  end.

Definition sorted_keys (experiment_data : experiment_table) : list Z :=
  Py.sorted (elements (dom experiment_data)).

Definition plot_time_differences (experiment_data : experiment_table) : io unit :=
  '(cache_sizes, time_differences) ←
    for_each (sorted_keys experiment_data) (linear_step experiment_data) ([], []);
  match cache_sizes with
  | [] => print MsgNoComplete
  | _ =>
      plt (Figure 10 6);;
      plt (Plot cache_sizes time_differences);;
      plt (Title "Absolute Speedup From IAA vs Cache Size");;
      plt (Xlabel "Cache Size (MB)");;
      plt (Ylabel "Absolute Speedup (s)");;
      plt Grid;;
      plt (Axhline 0);;
      plt TightLayout;;
      plt (Savefig plot_filename);;
      print (MsgPlotSaved plot_filename);;
      plt Show
  end.

(** The tick label of a cache size. *)
Definition cache_size_label (cs : Z) : string :=
  if 1024 * 1024 <=? cs
  then Py.str_of_int (cs `div` (1024 * 1024)) +:+ "MB"
  else Py.str_of_int cs +:+ "B".

Section Log2Plot.
Variable libm_log2 : float -> float.

(** One iteration of the loop of [plot_time_differences_log2]; the state
    is [(cache_sizes_log2, time_differences, cache_sizes_bytes)]. *)
Definition log2_step (experiment_data : experiment_table)
    (acc : list float * list float * list Z) (cache_size : Z)
    : io (list float * list float * list Z) :=
  let '(cache_sizes_log2, time_differences, cache_sizes_bytes) := acc in
  let data := experiment_data !!! cache_size in
  match data !! "sw", data !! "hw" with
  | Some sw_time, Some hw_time =>
      let difference := (sw_time - hw_time)%float in
      log2_cache_size ← lift (Py.log2 libm_log2 cache_size);
      let cache_sizes_log2 := cache_sizes_log2 ++ [log2_cache_size] in
      let time_differences := time_differences ++ [difference] in
      let cache_sizes_bytes := cache_sizes_bytes ++ [cache_size] in
      mb ← lift (Py.truediv cache_size (1024 * 1024));
      print (MsgDifference cache_size mb sw_time hw_time difference);;
      mret (cache_sizes_log2, time_differences, cache_sizes_bytes)
  | _, _ =>
      print (MsgMissing cache_size);;
      mret acc
  end.

(** The loop of [plot_time_differences_log2]: the three lists it builds. *)
Definition delta_series_log2 (experiment_data : experiment_table)
    : io (list float * list float * list Z) :=
  for_each (sorted_keys experiment_data) (log2_step experiment_data)
    ([], [], []).

Definition plot_time_differences_log2 (experiment_data : experiment_table)
    : io unit :=
  '(cache_sizes_log2, time_differences, cache_sizes_bytes) ←
    delta_series_log2 experiment_data;
  match cache_sizes_log2 with
  | [] => print MsgNoComplete
  | _ =>
      plt (Figure 10 6);;
      plt (Plot cache_sizes_log2 time_differences);;
      plt (Title "Absolute Speedup From IAA vs Cache Size");;
      plt (Ylabel "Absolute Speedup (s)");;
      plt (Xlabel "Cache Size (MB)");;
      plt Grid;;
      plt (Axhline 0);;
      let unique_cache_sizes := Py.sorted cache_sizes_bytes in
      log2_unique_cache_sizes ←
        comprehension (fun cs => lift (Py.log2 libm_log2 cs)) unique_cache_sizes;
      let cache_size_labels := cache_size_label <$> unique_cache_sizes in
      plt (Xticks log2_unique_cache_sizes cache_size_labels 45);;
      plt TightLayout;;
      plt (Savefig plot_filename);;
      print (MsgPlotSaved plot_filename);;
      plt Show
  end.

(** ** Main execution *)

(** [fs] is what the script finds at [OUTPUT_DIR]: [None] when
    [os.path.isdir] is false, else the directory's listing. *)
Definition main (fs : option listing) : io unit :=
  match fs with
  | None => print (MsgNoDirectory OUTPUT_DIR)
  | Some dir =>
      print MsgParsing;;
      experiment_data ← parse_experiment_files OUTPUT_DIR dir;
      if (size experiment_data =? 0)%nat
      then print MsgNoValidData
      else
        print MsgPlotting;;
        plot_time_differences_log2 experiment_data;;
        print MsgDone
  end.

End Log2Plot.

(** ** Vocabulary of the properties *)

Definition newline : string := String "010" EmptyString.

(** The longest prefix of [s] made of [p]-characters, and what follows. *)
Fixpoint span (p : ascii -> bool) (s : string) : string :=
  match s with
  | String c s' => if p c then String c (span p s') else EmptyString
  | EmptyString => EmptyString
  end.

Fixpoint skip (p : ascii -> bool) (s : string) : string :=
  match s with
  | String c s' => if p c then skip p s' else s
  | EmptyString => EmptyString
  end.

(** The two groups [match.groups()] returns for a file name. *)
Definition filename_fields (filename : string) : option (string * string) :=
  g ← Re.rematch FILENAME_REGEX filename;
  Some (Re.group g 1, Re.group g 2).

(** The name is exactly [exp_<digits>_<sw|hw>.txt], with size field [d]
    and mode token [m]. *)
Definition well_formed_name (filename d m : string) : Prop :=
  filename = "exp_" +:+ d +:+ "_" +:+ m +:+ ".txt"
  /\ d <> EmptyString /\ Py.all_digits d = true /\ (m = "sw" \/ m = "hw").

(** The [(cache_size, compression_type)] key a file name maps to. *)
Definition key_of (filename : string) : option (Z * string) :=
  '(d, m) ← filename_fields filename;
  Some (Py.digits_value 0 d, m).

(** The seconds token the metric pattern captures in a text. *)
Definition seconds_token (content : string) : option string :=
  g ← Re.search MIXGRAPH_TIME_REGEX content;
  Some (Re.group g 1).

(** The run time a file yields: it can be read, the metric pattern is
    found, and the captured token converts to a float. *)
Definition seconds_of (f : file) : option float :=
  match f with
  | Ok content =>
      tok ← seconds_token content;
      match Py.float_of_str tok with
      | Ok v => Some v
      | Raise _ => None
      end
  | Raise _ => None
  end.

(** [experiment_data[cache_size][mode]], when both keys are present. *)
Definition time_at (experiment_data : experiment_table) (cache_size : Z)
    (mode : string) : option float :=
  experiment_data !! cache_size ≫= (.!! mode).

(** The effect of one directory entry on the table. *)
Definition ensure_key (cache_size : Z) (experiment_data : experiment_table)
    : experiment_table :=
  match experiment_data !! cache_size with
  | Some _ => experiment_data
  | None => <[cache_size := ∅]> experiment_data
  end.

Definition record (experiment_data : experiment_table) (entry : string * file)
    : experiment_table :=
  match key_of entry.1 with
  | None => experiment_data
  | Some (cache_size, mode) =>
      let experiment_data := ensure_key cache_size experiment_data in
      match seconds_of entry.2 with
      | Some v =>
          <[cache_size := <[mode := v]> (experiment_data !!! cache_size)]>
            experiment_data
      | None => experiment_data
      end
  end.

(** What one directory entry prints and opens. *)
Definition file_log (output_dir : string) (entry : string * file) : list event :=
  match key_of entry.1 with
  | None => [Print (MsgSkipping entry.1)]
  | Some (cache_size, mode) =>
      Open (Py.path_join output_dir entry.1) ::
      match entry.2 with
      | Raise e => [Print (MsgReadError entry.1 e)]
      | Ok content =>
          match seconds_token content with
          | None => [Print (MsgNoRunTime entry.1)]
          | Some tok =>
              match Py.float_of_str tok with
              | Ok v => [Print (MsgParsed (Py.upper mode) cache_size v)]
              | Raise e => [Print (MsgReadError entry.1 e)]
              end
          end
      end
  end.

(** The table the collector returns for a directory. *)
Definition collected (dir : listing) : experiment_table :=
  foldl record ∅ dir.

(** The run time an entry yields for the key [(cache_size, mode)]. *)
Definition yields (entry : string * file) (cache_size : Z) (mode : string)
    : option float :=
  match key_of entry.1 with
  | Some (c, m) =>
      if decide (c = cache_size /\ m = mode) then seconds_of entry.2 else None
  | None => None
  end.

(** Both run times of a cache size, with their difference. *)
Definition delta (experiment_data : experiment_table) (cache_size : Z)
    : option float :=
  sw_time ← time_at experiment_data cache_size "sw";
  hw_time ← time_at experiment_data cache_size "hw";
  Some (sw_time - hw_time)%float.

Definition complete (experiment_data : experiment_table) (cache_size : Z) : Prop :=
  exists sw_time hw_time,
    time_at experiment_data cache_size "sw" = Some sw_time
    /\ time_at experiment_data cache_size "hw" = Some hw_time.

(** The cache sizes of a list that have both modes, in the list's order. *)
Definition complete_in (experiment_data : experiment_table) (l : list Z) : list Z :=
  filter (fun c => is_Some (delta experiment_data c)) l.

(** The cache sizes with both modes, in ascending order. *)
Definition complete_keys (experiment_data : experiment_table) : list Z :=
  complete_in experiment_data (sorted_keys experiment_data).

Definition is_ok {A} (r : result A) : bool :=
  match r with Ok _ => true | Raise _ => false end.

(** A cache size the log-mode loop gets through: [math.log2] accepts it
    and the megabyte figure of the progress line is a float. *)
Definition loggable (cache_size : Z) : bool :=
  (0 <? cache_size) && is_ok (Py.truediv cache_size (1024 * 1024)).

(** The [plt.plot] and [plt.xticks] calls of a trace. *)
Definition plot_calls (tr : list event) : list (list float * list float) :=
  omap (fun e => match e with Plt (Plot xs ys) => Some (xs, ys) | _ => None end) tr.

Definition xticks_calls (tr : list event)
    : list (list float * list string * Z) :=
  omap (fun e => match e with
                 | Plt (Xticks pos labels rot) => Some (pos, labels, rot)
                 | _ => None
                 end) tr.

Definition is_print (e : event) : bool :=
  match e with Print _ => true | _ => false end.

Definition is_plt (e : event) : bool :=
  match e with Plt _ => true | _ => false end.

(** Strictly ascending floats, by the IEEE comparison Python's [<] uses. *)
Fixpoint strictly_ascending (xs : list float) : bool :=
  match xs with
  | x :: (y :: _) as xs' => PrimFloat.ltb x y && strictly_ascending xs'
  | _ => true
  end.

(** A stand-in for the C library's [log2], exact on the powers of two:
    the binary exponent of its argument. *)
Definition exponent_log2 (x : float) : float :=
  (PrimFloat.of_uint63 (snd (PrimFloat.frshiftexp x)) - 2102)%float.

(** [x] is the megabyte figure of cache size [c]: [c / (1024 * 1024)]. *)
Definition mebibytes (c : Z) (x : float) : Prop :=
  Py.truediv c (1024 * 1024) = Ok x.

(** The calls [plot_time_differences_log2] makes once its loop has found
    something to plot. *)
Definition log2_chart (xs ds : list float) (labels : list string) : list event :=
  [Plt (Figure 10 6); Plt (Plot xs ds);
   Plt (Title "Absolute Speedup From IAA vs Cache Size");
   Plt (Ylabel "Absolute Speedup (s)"); Plt (Xlabel "Cache Size (MB)");
   Plt Grid; Plt (Axhline 0); Plt (Xticks xs labels 45); Plt TightLayout;
   Plt (Savefig plot_filename); Print (MsgPlotSaved plot_filename);
   Plt Show].

(** ** Sample inputs *)

(** A log in the benchmark's format whose mixgraph line ends with the
    given seconds field. *)
Definition mixgraph_log (seconds : string) : string :=
  "mixgraph     :       9.708 micros/op 103004 ops/sec " +:+ seconds
  +:+ " seconds 1000000 operations;" +:+ newline.

(** The record of a cache size with both run times. *)
Definition both (sw_time hw_time : float) : gmap string float :=
  <["sw" := sw_time]> (<["hw" := hw_time]> ∅).

Definition one_mebibyte_table : experiment_table :=
  {[1048576 := both 10 6]}.

(** Two cache sizes, 2^53 and 2^53 + 1, that round to the same double. *)
Definition huge_pair_table : experiment_table :=
  <[9007199254740992 := both 1 1]> (<[9007199254740993 := both 1 1]> ∅).

(** A complete software/hardware pair for cache size 0. *)
Definition zero_size_pair : listing :=
  [("exp_0_sw.txt", Ok (mixgraph_log "10.0"));
   ("exp_0_hw.txt", Ok (mixgraph_log "6.0"))].

(** Two files for the key [(4096, "sw")], the second with a leading zero
    in its size field. *)
Definition duplicate_key_listing : listing :=
  [("exp_4096_sw.txt", Ok (mixgraph_log "10.0"));
   ("exp_8192_hw.txt", Ok (mixgraph_log "3.5"));
   ("exp_04096_sw.txt", Ok (mixgraph_log "6.0"));
   ("notes.md", Ok "not a result file")].

(** ** Vocabulary of the further properties *)

(** The cache sizes of the matched names of a listing. *)
Definition matched_sizes (dir : listing) : list Z :=
  omap (fun entry => fst <$> key_of entry.1) dir.


(** The line the log-mode loop prints for a cache size it gets through. *)
Definition progress_line (experiment_data : experiment_table) (cache_size : Z)
    : event :=
  match time_at experiment_data cache_size "sw",
        time_at experiment_data cache_size "hw" with
  | Some sw_time, Some hw_time =>
      match Py.truediv cache_size (1024 * 1024) with
      | Ok mb =>
          Print (MsgDifference cache_size mb sw_time hw_time
                   (sw_time - hw_time)%float)
      | Raise _ => Print (MsgMissing cache_size)
      end
  | _, _ => Print (MsgMissing cache_size)
  end.

(** The [plt] calls of a trace. *)
Definition plt_calls (tr : list event) : list plt_call :=
  omap (fun e => match e with Plt c => Some c | _ => None end) tr.


(** The names of a listing the file-name pattern accepts. *)
Definition matched_names (dir : listing) : list string :=
  omap (fun entry => match key_of entry.1 with
                     | Some _ => Some entry.1
                     | None => None
                     end) dir.

(** A line of the loops of the plotting functions. *)
Definition is_progress (e : event) : bool :=
  match e with
  | Print (MsgDifference _ _ _ _ _) | Print (MsgMissing _) => true
  | _ => false
  end.

(** [s] without its prefix [w], when it starts with [w]. *)
Fixpoint strip (w s : string) : option string :=
  match w with
  | EmptyString => Some s
  | String c w' =>
      match s with
      | String c' s' => if Ascii.eqb c c' then strip w' s' else None
      | EmptyString => None
      end
  end.

(** [w] occurs somewhere in [s]. *)
Fixpoint occurs (w s : string) : bool :=
  match strip w s with
  | Some _ => true
  | None =>
      match s with
      | String _ s' => occurs w s'
      | EmptyString => false
      end
  end.

(** On a string that starts with [c], the pattern can only match the
    empty string, and leaves the groups as they are. *)
Fixpoint idle (r : Re.regex) (c : ascii) : bool :=
  match r with
  | Re.Eps => true
  | Re.Star p => negb (p c)
  | Re.Cat r1 r2 => idle r1 c && idle r2 c
  | _ => false
  end.

(** The pattern matches no string that starts with [c]. *)
Fixpoint blocked (r : Re.regex) (c : ascii) : bool :=
  match r with
  | Re.Lit c' => negb (Ascii.eqb c' c)
  | Re.Plus p => negb (p c)
  | Re.Alt r1 r2 => blocked r1 c && blocked r2 c
  | Re.Grp _ r' => blocked r' c
  | Re.Cat r1 r2 => blocked r1 c || (idle r1 c && blocked r2 c)
  | _ => false
  end.

(** The metric pattern as a left-to-right scanner: the seconds field of
    a text that starts with the mixgraph line. *)
Definition scan_metric (s : string) : option string :=
  s ← strip "mixgraph" s;
  s ← strip ":" (skip Py.is_space s);
  let s := skip Py.is_space s in
  if decide (span digit_or_dot s = EmptyString) then None else
  s ← strip "micros/op" (skip Py.is_space (skip digit_or_dot s));
  let s := skip Py.is_space s in
  if decide (span digit_or_dot s = EmptyString) then None else
  s ← strip "ops/sec" (skip Py.is_space (skip digit_or_dot s));
  let s := skip Py.is_space s in
  if decide (span digit_or_dot s = EmptyString) then None else
  _ ← strip "seconds" (skip Py.is_space (skip digit_or_dot s));
  Some (span digit_or_dot s).

(** The number of characters of [s] that satisfy [p]. *)
Fixpoint count_chars (p : ascii -> bool) (s : string) : nat :=
  match s with
  | EmptyString => 0%nat
  | String c s' => ((if p c then 1 else 0) + count_chars p s')%nat
  end.

(** The decimal point. *)
Definition is_dot (c : ascii) : bool := Ascii.eqb c ".".

(** [s] is empty or starts with a character outside [p]. *)
Definition starts_outside (p : ascii -> bool) (s : string) : Prop :=
  match s with String c _ => p c = false | EmptyString => True end.



(** A line the collector prints for a directory entry, or the opening of
    its file. *)
Definition is_file_event (e : event) : bool :=
  match e with
  | Open _ | Print (MsgSkipping _) | Print (MsgParsed _ _ _)
  | Print (MsgNoRunTime _) | Print (MsgReadError _ _) => true
  | _ => false
  end.

(** A software/hardware pair for cache size 2^20, in the benchmark's
    format. *)
Definition one_mebibyte_pair : listing :=
  [("exp_1048576_sw.txt", Ok (mixgraph_log "10.0"));
   ("exp_1048576_hw.txt", Ok (mixgraph_log "6.0"))].

(** * Properties *)

(** ** The monad *)

Lemma bind_ok {A B} (m : io A) (f : A -> io B) a :
  outcome m = Ok a ->
  m ≫= f = IO (trace m ++ trace (f a)) (outcome (f a)).
Proof. unfold mbind, io_bind. by intros ->. Qed.

Lemma bind_raise {A B} (m : io A) (f : A -> io B) e :
  outcome m = Raise e -> m ≫= f = IO (trace m) (Raise e).
Proof. unfold mbind, io_bind. by intros ->. Qed.

(** A loop whose body never raises is a fold. *)
Lemma for_each_pure {A S} (xs : list A) (body : S -> A -> io S)
    (step : S -> A -> S) (log : A -> list event) s :
  (forall s x, body s x = IO (log x) (Ok (step s x))) ->
  for_each xs body s = IO (concat (log <$> xs)) (Ok (foldl step s xs)).
Proof.
  intros Hbody. revert s. induction xs as [|x xs IH]; intros s; [done|].
  cbn [for_each]. rewrite Hbody, (bind_ok _ _ (step s x)) by done.
  by rewrite IH.
Qed.

(** ** Strings *)
Lemma append_cons c (s t : string) : String c s +:+ t = String c (s +:+ t).
Proof. reflexivity. Qed.

Lemma append_empty (t : string) : EmptyString +:+ t = t.
Proof. reflexivity. Qed.

Lemma int_of_digits d :
  d <> EmptyString -> Py.all_digits d = true ->
  Py.int_of_str d = Ok (Py.digits_value 0 d).
Proof. intros Hd Hall. unfold Py.int_of_str. rewrite Hall. by destruct d. Qed.

Lemma span_skip p s : span p s +:+ skip p s = s.
Proof.
  induction s as [|c s IH]; [done|]. simpl.
  destruct (p c); [|done]. rewrite append_cons. congruence.
Qed.

Lemma all_chars_span p s : Py.all_chars p (span p s) = true.
Proof. induction s as [|c s IH]; simpl; [done|]. destruct (p c) eqn:E; simpl; [by rewrite E|done]. Qed.

Lemma skip_app p a b :
  Py.all_chars p a = true -> skip p (a +:+ b) = skip p b.
Proof.
  induction a as [|c a IH]; [done|]. rewrite append_cons. simpl.
  intros [-> Ha]%andb_prop. auto.
Qed.

Lemma star_skip {A} p s (k : string -> option A) :
  (forall c s', p c = true -> k (String c s') = None) ->
  Re.star p s k = k (skip p s).
Proof.
  intros Hk. induction s as [|c s IH]; simpl; [done|].
  destruct (p c) eqn:E; [|done].
  rewrite IH. destruct (k (skip p s)) eqn:Ek; [done|]. by apply Hk.
Qed.

Lemma length_append (a b : string) :
  String.length (a +:+ b) = (String.length a + String.length b)%nat.
Proof. induction a as [|c a IH]; [done|]. rewrite append_cons. simpl. by rewrite IH. Qed.

Lemma consumed_app a b : Re.consumed (a +:+ b) b = a.
Proof.
  unfold Re.consumed.
  assert (String.length (a +:+ b) - String.length b = String.length a)%nat as ->.
  { rewrite length_append. lia. }
  induction a as [|c a IH]; rewrite ?append_cons, ?append_empty; simpl.
  - by destruct b.
  - by rewrite IH.
Qed.




Lemma digit_not_underscore c : Py.is_digit c = true -> Ascii.eqb "_" c = false.
Proof. by destruct c as [[] [] [] [] [] [] [] []]. Qed.

Lemma eqb_true a b : Ascii.eqb a b = true -> a = b.
Proof. by intros ?%Ascii.eqb_eq. Qed.

Lemma at_eol_inv s : Re.at_eol s = true -> s = EmptyString \/ s = newline.
Proof.
  destruct s as [|c [|c' s]]; simpl; [by left| |done].
  intros ->%eqb_true. by right.
Qed.


Lemma groups_of_match (d m : string) :
  (Re.group (<[2%nat := m]> (<[1%nat := d]> (∅ : gmap nat string))) 1,
   Re.group (<[2%nat := m]> (<[1%nat := d]> (∅ : gmap nat string))) 2) = (d, m).
Proof.
  unfold Re.group.
  by rewrite lookup_total_insert_ne, !lookup_total_insert_eq.
Qed.

Ltac finish_fields H Hsplit Hall Heol :=
  cbn [mbind option_bind] in H; rewrite groups_of_match in H;
  injection H as <- <-;
  match type of Heol with Re.at_eol ?r = true => exists r end;
  split; [by rewrite <- Hsplit at 1|];
  split; [done|]; split; [by cbn; rewrite Hall; match goal with Hc : _ |- _ => rewrite Hc end|];
  split; [auto|by apply at_eol_inv].

Ltac lit_step H :=
  match type of H with
  | context [match ?s with EmptyString => _ | String _ _ => _ end] =>
      is_var s; destruct s as [|? s]; [discriminate H|]
  | context [if Ascii.eqb ?a ?b then _ else _] =>
      destruct (Ascii.eqb a b) eqn:?E; [apply eqb_true in E; subst|discriminate H]
  end.

Lemma filename_fields_complete name d m :
  filename_fields name = Some (d, m) ->
  exists nl, name = "exp_" +:+ d +:+ "_" +:+ m +:+ ".txt" +:+ nl /\
    d <> EmptyString /\ Py.all_digits d = true /\
    (m = "sw" \/ m = "hw") /\ (nl = EmptyString \/ nl = newline).
Proof.
  unfold filename_fields, Re.rematch, FILENAME_REGEX.
  cbn [Re.run Re.lit]. intros H.
  do 8 lit_step H.
  destruct name as [|c name]; [discriminate H|].
  destruct (Py.is_digit c) eqn:Hc; [|discriminate H].
  rewrite star_skip in H.
  2:{ intros c' s' Hc'. by rewrite (digit_not_underscore c' Hc'). }
  pose proof (span_skip Py.is_digit name) as Hsplit.
  pose proof (all_chars_span Py.is_digit name) as Hall.
  destruct (skip Py.is_digit name) as [|u rest] eqn:Hskip; [discriminate H|].
  destruct (Ascii.eqb "_" u) eqn:Hu; [apply eqb_true in Hu; subst u|discriminate H].
  assert (Re.consumed (String c name) (String "_" rest)
          = String c (span Py.is_digit name)) as Hd.
  { rewrite <- Hsplit at 1. rewrite <- append_cons. apply consumed_app. }
  rewrite Hd in H. clear Hd.
  destruct rest as [|c1 rest]; [discriminate H|].
  destruct (Ascii.eqb "s" c1) eqn:Es; [apply eqb_true in Es; subst c1|].
  - change (Ascii.eqb "h" "s") with false in H. cbv iota in H.
    do 10 lit_step H.
    destruct (Re.at_eol rest) eqn:Heol; [|discriminate H].
    match type of H with context [Re.consumed ?a ?b] =>
      change a with ("sw" +:+ b) in H end.
    rewrite consumed_app in H.
    finish_fields H Hsplit Hall Heol.
  - cbv iota in H.
    destruct (Ascii.eqb "h" c1) eqn:Eh; [apply eqb_true in Eh; subst c1|discriminate H].
    do 10 lit_step H.
    destruct (Re.at_eol rest) eqn:Heol; [|discriminate H].
    match type of H with context [Re.consumed ?a ?b] =>
      change a with ("hw" +:+ b) in H end.
    rewrite consumed_app in H.
    finish_fields H Hsplit Hall Heol.
Qed.

Lemma filename_fields_sound d m nl :
  d <> EmptyString -> Py.all_digits d = true ->
  (m = "sw" \/ m = "hw") -> (nl = EmptyString \/ nl = newline) ->
  filename_fields ("exp_" +:+ d +:+ "_" +:+ m +:+ ".txt" +:+ nl) = Some (d, m).
Proof.
  intros Hd Hall Hm Hnl.
  destruct d as [|c d]; [done|]. cbn in Hall.
  apply andb_prop in Hall as [Hc Hall].
  unfold filename_fields, Re.rematch, FILENAME_REGEX.
  rewrite !append_cons, !append_empty.
  cbn [Re.run Re.lit]. rewrite !Ascii.eqb_refl, Hc.
  rewrite star_skip.
  2:{ intros c' s' Hc'. by rewrite (digit_not_underscore c' Hc'). }
  rewrite skip_app by done. cbn [skip].
  change (Py.is_digit "_") with false. cbv iota. rewrite Ascii.eqb_refl.
  rewrite <- (append_cons c d), consumed_app.
  assert (Re.at_eol nl = true) as Heol by (by destruct Hnl as [-> | ->]).
  destruct Hm as [-> | ->]; rewrite !append_cons, !append_empty.
  - rewrite !Ascii.eqb_refl, Heol.
    match goal with |- context [Re.consumed ?a ?b] =>
      change a with ("sw" +:+ b) end.
    rewrite consumed_app. cbn [mbind option_bind]. by rewrite groups_of_match.
  - change (Ascii.eqb "s" "h") with false. cbv iota.
    rewrite !Ascii.eqb_refl, Heol.
    match goal with |- context [Re.consumed ?a ?b] =>
      change a with ("hw" +:+ b) end.
    rewrite consumed_app. cbn [mbind option_bind]. by rewrite groups_of_match.
Qed.

(** ** The collector *)

Lemma parse_file_eq output_dir experiment_data entry :
  parse_file output_dir experiment_data entry
  = IO (file_log output_dir entry) (Ok (record experiment_data entry)).
Proof.
  destruct entry as [filename f].
  unfold parse_file, file_log, record, key_of. cbn [fst snd].
  destruct (filename_fields filename) as [[d m]|] eqn:Hf.
  - pose proof (filename_fields_complete _ _ _ Hf) as (nl & _ & Hd & Hall & _).
    unfold filename_fields in Hf.
    destruct (Re.rematch FILENAME_REGEX filename) as [g|]; [|done].
    cbn in Hf. injection Hf as Hd' Hm'. rewrite Hd', Hm'.
    rewrite (int_of_digits d Hd Hall). cbn [mbind option_bind].
    unfold ensure_key, seconds_of, seconds_token.
    set (c := Py.digits_value 0 d).
    set (T := match experiment_data !! c with Some _ => _ | None => _ end).
    destruct f as [content|e]; [|done].
    cbn. destruct (Re.search MIXGRAPH_TIME_REGEX content) as [g'|]; [|done].
    cbn. by destruct (Py.float_of_str (Re.group g' 1)).
  - unfold filename_fields in Hf.
    by destruct (Re.rematch FILENAME_REGEX filename).
Qed.

Lemma parse_experiment_files_eq output_dir dir :
  parse_experiment_files output_dir dir
  = IO (concat (file_log output_dir <$> dir)) (Ok (collected dir)).
Proof. apply for_each_pure, parse_file_eq. Qed.

Lemma lookup_total_time (T : experiment_table) c m :
  (T !!! c) !! m = time_at T c m.
Proof.
  unfold time_at. rewrite lookup_total_alt.
  by destruct (T !! c).
Qed.

Lemma time_at_ensure_key c' (T : experiment_table) c m :
  time_at (ensure_key c' T) c m = time_at T c m.
Proof.
  unfold ensure_key. destruct (T !! c') eqn:Hc'; [done|].
  unfold time_at. destruct (decide (c = c')) as [->|Hne].
  - by rewrite lookup_insert_eq, Hc'.
  - by rewrite lookup_insert_ne.
Qed.

Lemma time_at_record (T : experiment_table) entry c m :
  time_at (record T entry) c m
  = match yields entry c m with
    | Some v => Some v
    | None => time_at T c m
    end.
Proof.
  unfold record, yields.
  destruct (key_of entry.1) as [[c' m']|]; [|done].
  destruct (seconds_of entry.2) as [v|].
  - unfold time_at at 1.
    destruct (decide (c' = c)) as [->|Hc].
    + rewrite lookup_insert_eq. cbn.
      destruct (decide (m' = m)) as [->|Hm].
      * rewrite lookup_insert_eq. by rewrite decide_True.
      * rewrite lookup_insert_ne by done. rewrite decide_False by tauto.
        by rewrite lookup_total_time, time_at_ensure_key.
    + rewrite lookup_insert_ne by done. rewrite decide_False by tauto.
      apply time_at_ensure_key.
  - rewrite time_at_ensure_key. by destruct (decide _).
Qed.

Lemma collected_snoc dir entry :
  collected (dir ++ [entry]) = record (collected dir) entry.
Proof. unfold collected. by rewrite foldl_app. Qed.

(** The table holds, for each key, the value of the last entry of the
    listing that yields one for it. *)
Lemma time_at_collected dir c m :
  time_at (collected dir) c m = last (omap (fun e => yields e c m) dir).
Proof.
  induction dir as [|entry dir IH] using rev_ind; [done|].
  rewrite collected_snoc, time_at_record, omap_app. cbn [omap].
  destruct (yields entry c m) as [v|] eqn:Hy; cbn; rewrite ?Hy.
  - by rewrite last_snoc.
  - by rewrite app_nil_r.
Qed.

(** ** Sorted keys *)

Lemma elem_of_sorted_keys (T : experiment_table) c :
  c ∈ sorted_keys T <-> is_Some (T !! c).
Proof.
  unfold sorted_keys, Py.sorted.
  rewrite merge_sort_Permutation, elem_of_elements. apply elem_of_dom.
Qed.

Lemma StronglySorted_le_lt (l : list Z) :
  StronglySorted Z.le l -> NoDup l -> StronglySorted Z.lt l.
Proof.
  induction 1 as [|x l Hl IH Hx]; intros Hnd; [constructor|].
  apply NoDup_cons in Hnd as [Hx' Hnd].
  constructor; [by apply IH|].
  apply Forall_forall. intros y Hy.
  rewrite Forall_forall in Hx. specialize (Hx y Hy).
  assert (x <> y) by (intros ->; done). lia.
Qed.

Lemma sorted_keys_ascending (T : experiment_table) :
  StronglySorted Z.lt (sorted_keys T).
Proof.
  apply StronglySorted_le_lt.
  - apply StronglySorted_merge_sort; apply _.
  - unfold sorted_keys, Py.sorted. rewrite merge_sort_Permutation.
    apply NoDup_elements.
Qed.

Lemma StronglySorted_filter_lt (P : Z -> Prop) `{!forall x, Decision (P x)} l :
  StronglySorted Z.lt l -> StronglySorted Z.lt (filter P l).
Proof.
  induction 1 as [|x l Hl IH Hx]; [constructor|].
  rewrite filter_cons. destruct (decide (P x)); [|done].
  constructor; [done|].
  apply Forall_forall. intros y [_ Hy]%list_elem_of_filter.
  rewrite Forall_forall in Hx. auto.
Qed.

Lemma complete_keys_ascending T : StronglySorted Z.lt (complete_keys T).
Proof.
  unfold complete_keys, complete_in.
  apply StronglySorted_filter_lt, sorted_keys_ascending.
Qed.

Lemma delta_complete T c : is_Some (delta T c) <-> complete T c.
Proof.
  unfold delta, complete.
  destruct (time_at T c "sw") as [sw|], (time_at T c "hw") as [hw|]; cbn;
    split; try (intros [? [=]]; fail); try (intros (? & ? & [=] & [=]); fail);
    eauto.
Qed.

Lemma elem_of_complete_keys T c : c ∈ complete_keys T <-> complete T c.
Proof.
  unfold complete_keys, complete_in.
  rewrite list_elem_of_filter, delta_complete.
  split; [tauto|]. intros Hc. split; [done|].
  apply elem_of_sorted_keys. destruct Hc as (sw & _ & Hsw & _).
  unfold time_at in Hsw. by destruct (T !! c).
Qed.

(** A strictly ascending list is its own sorted version. *)
Lemma sorted_ascending l : StronglySorted Z.lt l -> Py.sorted l = l.
Proof.
  intros Hl. unfold Py.sorted.
  apply (StronglySorted_unique Z.le).
  - apply StronglySorted_merge_sort; apply _.
  - induction Hl as [|x l' Hl' IH Hx]; constructor; [done|].
    eapply Forall_impl; [done|]. intros; cbn in *; lia.
  - apply merge_sort_Permutation.
Qed.

Lemma complete_in_deltas T l :
  Forall2 (fun c d => delta T c = Some d) (complete_in T l) (omap (delta T) l).
Proof.
  induction l as [|c l IH]; [constructor|].
  unfold complete_in. rewrite filter_cons. cbn [omap list_omap].
  destruct (delta T c) as [d|] eqn:Hd.
  - rewrite decide_True by (by eexists). by constructor.
  - by rewrite decide_False by (by intros [? [=]]).
Qed.

Lemma loggable_positive c : loggable c = true -> 0 < c.
Proof. unfold loggable. intros [?%Z.ltb_lt _]%andb_prop. done. Qed.

Lemma prints_no_plot tr : Forall is_print tr -> plot_calls tr = [].
Proof.
  induction 1 as [|[] tr He Htr IH]; [done|..]; try done.
Qed.

(** ** The loops of the plotting functions *)

Section Log2Loop.
Variable libm_log2 : float -> float.
Variable T : experiment_table.

Lemma log2_step_spec xs ds cs c :
  Forall is_print (trace (log2_step libm_log2 T (xs, ds, cs) c))
  /\ match outcome (log2_step libm_log2 T (xs, ds, cs) c) with
     | Ok acc' =>
         match delta T c with
         | Some d =>
             loggable c = true /\
             acc' = (xs ++ [Py.log2_positive libm_log2 c], ds ++ [d], cs ++ [c])
         | None => acc' = (xs, ds, cs)
         end
     | Raise _ => is_Some (delta T c) /\ loggable c = false
     end.
Proof.
  unfold log2_step, delta, loggable. rewrite !lookup_total_time.
  destruct (time_at T c "sw") as [sw|]; cbn [mbind option_bind];
    [destruct (time_at T c "hw") as [hw|]; cbn [mbind option_bind]|].
  - unfold Py.log2. rewrite Z.ltb_antisym.
    destruct (c <=? 0); cbn.
    + split; [constructor|]. split; [by eexists|done].
    + destruct (Py.truediv c (1024 * 1024)) as [mb|e]; cbn.
      * split; [by repeat constructor|done].
      * split; [constructor|]. split; [by eexists|done].
  - cbn. split; [by repeat constructor|done].
  - cbn. split; [by repeat constructor|done].
Qed.

Lemma log2_loop_spec l : forall xs ds cs,
  Forall is_print (trace (for_each l (log2_step libm_log2 T) (xs, ds, cs)))
  /\ match outcome (for_each l (log2_step libm_log2 T) (xs, ds, cs)) with
     | Ok acc' =>
         Forall (fun c => loggable c = true) (complete_in T l) /\
         acc' = (xs ++ (Py.log2_positive libm_log2 <$> complete_in T l),
                 ds ++ omap (delta T) l,
                 cs ++ complete_in T l)
     | Raise _ => Exists (fun c => loggable c = false) (complete_in T l)
     end.
Proof.
  induction l as [|c l IH]; intros xs ds cs.
  - cbn. split; [constructor|]. split; [constructor|].
    by rewrite !app_nil_r.
  - cbn [for_each]. unfold complete_in. rewrite filter_cons. cbn [omap].
    destruct (log2_step_spec xs ds cs c) as [Htr Hout].
    destruct (log2_step libm_log2 T (xs, ds, cs) c) as [tr [acc'|e]];
      cbn [trace outcome] in *.
    + unfold mbind, io_bind. cbn [outcome trace].
      destruct (delta T c) as [d|] eqn:Hd.
      * destruct Hout as [Hlog ->].
        rewrite decide_True by (by eexists).
        destruct (IH (xs ++ [Py.log2_positive libm_log2 c])
                     (ds ++ [d]) (cs ++ [c])) as [Htr' Hout'].
        destruct (for_each l _ _) as [tr' [acc''|e]]; cbn [trace outcome] in *.
        -- split; [by apply Forall_app|].
           destruct Hout' as [Hall ->]. split; [by constructor|].
           rewrite fmap_cons, <- !app_assoc. cbn [omap list_omap].
           by rewrite Hd.
        -- split; [by apply Forall_app|]. by apply Exists_cons_tl.
      * subst acc'. rewrite decide_False by (by intros [? [=]]).
        destruct (IH xs ds cs) as [Htr' Hout'].
        destruct (for_each l _ _) as [tr' [acc''|e]]; cbn [trace outcome] in *.
        -- split; [by apply Forall_app|]. cbn [omap list_omap].
           by rewrite Hd.
        -- split; [by apply Forall_app|]. done.
    + unfold mbind, io_bind. cbn [outcome trace].
      destruct Hout as [Hsome Hlog]. rewrite decide_True by done.
      split; [done|]. by apply Exists_cons_hd.
Qed.

Lemma comprehension_log2 l :
  Forall (fun c => loggable c = true) l ->
  comprehension (fun cs => lift (Py.log2 libm_log2 cs)) l
  = IO [] (Ok (Py.log2_positive libm_log2 <$> l)).
Proof.
  induction 1 as [|c l Hc Hl IH]; [done|].
  cbn [comprehension]. rewrite IH.
  apply loggable_positive in Hc.
  unfold Py.log2. destruct (c <=? 0) eqn:Hle; [lia|].
  reflexivity.
Qed.

Lemma plot_log2_spec :
  let loop := delta_series_log2 libm_log2 T in
  let ck := complete_keys T in
  Forall is_print (trace loop) /\
  plot_time_differences_log2 libm_log2 T
  = if forallb loggable ck then
      match ck with
      | [] => IO (trace loop ++ [Print MsgNoComplete]) (Ok tt)
      | _ => IO (trace loop
                 ++ log2_chart (Py.log2_positive libm_log2 <$> ck)
                      (omap (delta T) (sorted_keys T))
                      (cache_size_label <$> ck))
               (Ok tt)
      end
    else IO (trace loop) (outcome (loop ≫= fun _ => mret tt)).
Proof.
  intros loop ck.
  destruct (log2_loop_spec (sorted_keys T) [] [] []) as [Htr Hout].
  fold (delta_series_log2 libm_log2 T) in Htr, Hout. fold loop in Htr, Hout.
  split; [done|].
  unfold plot_time_differences_log2. fold loop.
  change (complete_in T (sorted_keys T)) with ck in Hout.
  pose proof (complete_keys_ascending T) as Hasc. fold ck in Hasc.
  clearbody ck loop.
  destruct (outcome loop) as [acc|e] eqn:Hloop.
  - destruct Hout as [Hall ->]. cbn [app] in *.
    rewrite (proj2 (forallb_forall _ _)).
    2:{ intros c Hc%list_elem_of_In. by eapply Forall_forall in Hall. }
    erewrite bind_ok by done. cbn beta iota.
    destruct ck as [|c ck']; [done|].
    rewrite (sorted_ascending _ Hasc), (comprehension_log2 _ Hall).
    reflexivity.
  - assert (forallb loggable ck = false) as ->.
    { apply not_true_is_false. intros Hall.
      rewrite forallb_forall in Hall.
      apply Exists_exists in Hout as (c & Hc & Hlog).
      rewrite (Hall c) in Hlog; [done|]. by apply list_elem_of_In. }
    by erewrite !bind_raise by done.
Qed.

End Log2Loop.

Section LinearLoop.
Variable T : experiment_table.

Lemma linear_step_spec xs ds c :
  Forall is_print (trace (linear_step T (xs, ds) c))
  /\ match outcome (linear_step T (xs, ds) c) with
     | Ok acc' =>
         match delta T c with
         | Some d => exists x, mebibytes c x /\ acc' = (xs ++ [x], ds ++ [d])
         | None => acc' = (xs, ds)
         end
     | Raise _ => is_Some (delta T c)
     end.
Proof.
  unfold linear_step, delta, mebibytes. rewrite !lookup_total_time.
  destruct (time_at T c "sw") as [sw|]; cbn [mbind option_bind];
    [destruct (time_at T c "hw") as [hw|]; cbn [mbind option_bind]|].
  - destruct (Py.truediv c (1024 * 1024)) as [mb|e]; cbn.
    + split; [by repeat constructor|]. by eexists.
    + split; [constructor|]. by eexists.
  - cbn. split; [by repeat constructor|done].
  - cbn. split; [by repeat constructor|done].
Qed.

Lemma linear_loop_spec l : forall xs ds,
  Forall is_print (trace (for_each l (linear_step T) (xs, ds)))
  /\ match outcome (for_each l (linear_step T) (xs, ds)) with
     | Ok acc' =>
         exists nx, Forall2 mebibytes (complete_in T l) nx
                    /\ acc' = (xs ++ nx, ds ++ omap (delta T) l)
     | Raise _ => True
     end.
Proof.
  induction l as [|c l IH]; intros xs ds.
  - cbn. split; [constructor|]. exists []. split; [constructor|].
    by rewrite !app_nil_r.
  - cbn [for_each]. unfold complete_in. rewrite filter_cons.
    cbn [omap list_omap].
    destruct (linear_step_spec xs ds c) as [Htr Hout].
    destruct (linear_step T (xs, ds) c) as [tr [acc'|e]];
      cbn [trace outcome] in *; unfold mbind, io_bind; cbn [outcome trace];
      [|done].
    destruct (delta T c) as [d|] eqn:Hd.
    + destruct Hout as (x & Hx & ->).
      rewrite decide_True by (by eexists).
      destruct (IH (xs ++ [x]) (ds ++ [d])) as [Htr' Hout'].
      destruct (for_each l _ _) as [tr' [acc''|e]]; cbn [trace outcome] in *.
      * split; [by apply Forall_app|].
        destruct Hout' as (nx & Hnx & ->). exists (x :: nx).
        split; [by constructor|]. by rewrite <- !app_assoc.
      * split; [by apply Forall_app|done].
    + subst acc'. rewrite decide_False by (by intros [? [=]]).
      destruct (IH xs ds) as [Htr' Hout'].
      destruct (for_each l _ _) as [tr' [acc''|e]]; cbn [trace outcome] in *.
      * split; [by apply Forall_app|done].
      * split; [by apply Forall_app|done].
Qed.

Lemma plot_linear_spec xs ys :
  (xs, ys) ∈ plot_calls (trace (plot_time_differences T)) ->
  Forall2 mebibytes (complete_keys T) xs
  /\ Forall2 (fun c d => delta T c = Some d) (complete_keys T) ys.
Proof.
  unfold plot_time_differences.
  destruct (linear_loop_spec (sorted_keys T) [] []) as [Htr Hout].
  set (loop := for_each _ _ _) in *. clearbody loop.
  destruct loop as [tr [[xs' ys']|e]]; cbn [trace outcome] in *.
  - destruct Hout as (nx & Hnx & [= -> ->]).
    unfold mbind, io_bind. cbn [outcome trace].
    destruct nx as [|x nx].
    + cbn. unfold plot_calls. rewrite omap_app.
      fold (plot_calls tr). rewrite prints_no_plot by done. cbn.
      by intros ?%elem_of_nil.
    + cbn. unfold plot_calls. rewrite omap_app.
      fold (plot_calls tr). rewrite prints_no_plot by done. cbn.
      intros [= -> ->]%list_elem_of_singleton.
      split; [done|]. apply complete_in_deltas.
  - unfold mbind, io_bind. cbn. rewrite prints_no_plot by done.
    by intros ?%elem_of_nil.
Qed.

End LinearLoop.

(** ** The main function *)

(** [main] on an existing directory, in terms of the collector's table and
    the log-mode plot function. *)
Lemma main_some libm_log2 dir :
  main libm_log2 (Some dir)
  = let T := collected dir in
    let scan := Print MsgParsing :: concat (file_log OUTPUT_DIR <$> dir) in
    if (size T =? 0)%nat then IO (scan ++ [Print MsgNoValidData]) (Ok tt)
    else
      let p := plot_time_differences_log2 libm_log2 T in
      IO (scan ++ Print MsgPlotting :: trace p
          ++ match outcome p with Ok _ => [Print MsgDone] | Raise _ => [] end)
         (outcome p).
Proof.
  unfold main. rewrite parse_experiment_files_eq.
  unfold mbind, io_bind. cbn [outcome trace print emit app].
  destruct (size (collected dir) =? 0)%nat; cbn [outcome trace print emit app].
  - done.
  - destruct (plot_time_differences_log2 libm_log2 (collected dir))
      as [tr [[]|e]]; cbn [outcome trace app]; by rewrite ?app_nil_r.
Qed.

Lemma file_log_no_plt output_dir entry :
  Forall (fun e => is_plt e = false) (file_log output_dir entry).
Proof.
  unfold file_log. destruct (key_of entry.1) as [[c m]|]; [|by repeat constructor].
  constructor; [done|].
  destruct entry.2 as [content|e]; [|by repeat constructor].
  destruct (seconds_token content) as [tok|]; [|by repeat constructor].
  destruct (Py.float_of_str tok); by repeat constructor.
Qed.

Lemma scan_no_plt output_dir (dir : listing) :
  Forall (fun e => is_plt e = false) (concat (file_log output_dir <$> dir)).
Proof.
  induction dir as [|entry dir IH]; [constructor|].
  cbn. apply Forall_app. split; [apply file_log_no_plt|done].
Qed.

Lemma print_not_plt tr :
  Forall is_print tr -> Forall (fun e => is_plt e = false) tr.
Proof. intros H. eapply Forall_impl; [exact H|]. by intros []. Qed.

Lemma no_plt_plot_calls tr :
  Forall (fun e => is_plt e = false) tr -> plot_calls tr = [].
Proof. induction 1 as [|[] tr He Htr IH]; [done|..]; try done. Qed.

Lemma no_plt_xticks_calls tr :
  Forall (fun e => is_plt e = false) tr -> xticks_calls tr = [].
Proof. induction 1 as [|[] tr He Htr IH]; [done|..]; try done. Qed.

Lemma no_plt_filter tr :
  Forall (fun e => is_plt e = false) tr -> filter is_plt tr = [].
Proof. induction 1 as [|[] tr He Htr IH]; [done|..]; try done. Qed.

Lemma delta_series_log2_spec libm_log2 T :
  match outcome (delta_series_log2 libm_log2 T) with
  | Ok acc =>
      Forall (fun c => loggable c = true) (complete_keys T) /\
      acc = (Py.log2_positive libm_log2 <$> complete_keys T,
             omap (delta T) (sorted_keys T), complete_keys T)
  | Raise _ => Exists (fun c => loggable c = false) (complete_keys T)
  end.
Proof. apply (log2_loop_spec libm_log2 T (sorted_keys T) [] [] []). Qed.

(** ** Floats *)

(** No float is below itself, NaN included. *)
Lemma SFcompare_refl_not_lt s : SFcompare s s <> Some Lt.
Proof.
  destruct s as [[]|[]| |[] m e]; cbn; try done.
  - rewrite Z.compare_refl. cbn. by rewrite Pos.compare_cont_refl.
  - rewrite Z.compare_refl. by rewrite Pos.compare_cont_refl.
Qed.

Lemma ltb_irrefl (x : float) : PrimFloat.ltb x x = false.
Proof.
  rewrite ltb_spec. unfold SFltb.
  pose proof (SFcompare_refl_not_lt (Prim2SF x)).
  by destruct (SFcompare _ _) as [[]|].
Qed.

(** ** Sample file names and the scan's part of a trace *)

Lemma key_1048576_sw : key_of "exp_1048576_sw.txt" = Some (1048576, "sw").
Proof. vm_compute. reflexivity. Qed.

Lemma key_1048576_hw : key_of "exp_1048576_hw.txt" = Some (1048576, "hw").
Proof. vm_compute. reflexivity. Qed.

Lemma scan_plot_calls dir tr :
  plot_calls ((Print MsgParsing :: concat (file_log OUTPUT_DIR <$> dir))
              ++ Print MsgPlotting :: tr) = plot_calls tr.
Proof.
  unfold plot_calls. rewrite omap_app. cbn [omap list_omap].
  fold (plot_calls (concat (file_log OUTPUT_DIR <$> dir))).
  by rewrite no_plt_plot_calls by apply scan_no_plt.
Qed.

Lemma scan_xticks_calls dir tr :
  xticks_calls ((Print MsgParsing :: concat (file_log OUTPUT_DIR <$> dir))
                ++ Print MsgPlotting :: tr) = xticks_calls tr.
Proof.
  unfold xticks_calls. rewrite omap_app. cbn [omap list_omap].
  fold (xticks_calls (concat (file_log OUTPUT_DIR <$> dir))).
  by rewrite no_plt_xticks_calls by apply scan_no_plt.
Qed.

Lemma key_4096_sw : key_of "exp_4096_sw.txt" = Some (4096, "sw").
Proof. vm_compute. reflexivity. Qed.

Lemma append_assoc (a b c : string) : (a +:+ b) +:+ c = a +:+ (b +:+ c).
Proof. induction a as [|x a IH]; [done|]. rewrite !append_cons. by rewrite IH. Qed.

Lemma append_empty_r (a : string) : a +:+ EmptyString = a.
Proof. induction a as [|x a IH]; [done|]. rewrite append_cons. by rewrite IH. Qed.

(** * The claims *)

(** ** The aggregator *)

(** C1.  Whenever the log-mode loop of the aggregator returns its three
    lists (which it does exactly when every cache size with both modes
    passes [math.log2] and the megabyte figure of its progress line), a
    cache size has an entry if and only if both its software and hardware
    times are in the table, and the entry's delta is the float
    [sw_time - hw_time]; the three lists are parallel. *)
Theorem delta_series_log2_entries (libm_log2 : float -> float)
    (experiment_data : experiment_table) :
  (Forall (fun c => loggable c = true) (complete_keys experiment_data) <->
   is_ok (outcome (delta_series_log2 libm_log2 experiment_data)) = true)
  /\ forall cache_sizes_log2 time_differences cache_sizes_bytes,
      outcome (delta_series_log2 libm_log2 experiment_data)
      = Ok (cache_sizes_log2, time_differences, cache_sizes_bytes) ->
      (forall cache_size,
          cache_size ∈ cache_sizes_bytes <->
          exists sw_time hw_time,
            time_at experiment_data cache_size "sw" = Some sw_time
            /\ time_at experiment_data cache_size "hw" = Some hw_time)
      /\ (forall i cache_size,
            cache_sizes_bytes !! i = Some cache_size ->
            exists sw_time hw_time,
              time_at experiment_data cache_size "sw" = Some sw_time
              /\ time_at experiment_data cache_size "hw" = Some hw_time
              /\ time_differences !! i = Some (sw_time - hw_time)%float
              /\ cache_sizes_log2 !! i
                 = Some (Py.log2_positive libm_log2 cache_size))
      /\ length cache_sizes_log2 = length cache_sizes_bytes
      /\ length time_differences = length cache_sizes_bytes.
Proof.
  pose proof (delta_series_log2_spec libm_log2 experiment_data) as Hspec.
  split.
  - destruct (outcome _) as [acc|e]; cbn.
    + by destruct Hspec.
    + split; [|done]. intros Hall.
      apply Exists_exists in Hspec as (c & Hc & Hlog).
      eapply Forall_forall in Hall; [|done]. congruence.
  - intros xs ds cs Hout. rewrite Hout in Hspec.
    destruct Hspec as [_ [= -> -> ->]].
    pose proof (complete_in_deltas experiment_data (sorted_keys experiment_data))
      as Hds.
    change (complete_in experiment_data (sorted_keys experiment_data))
      with (complete_keys experiment_data) in Hds.
    split; [intros c; apply elem_of_complete_keys|].
    split.
    + intros i c Hi.
      destruct (Forall2_lookup_l _ _ _ _ _ Hds Hi) as (d & Hd & Hdelta).
      unfold delta in Hdelta.
      destruct (time_at experiment_data c "sw") as [sw|]; [|done].
      destruct (time_at experiment_data c "hw") as [hw|]; [|done].
      cbn in Hdelta. injection Hdelta as <-.
      exists sw, hw. repeat split; [done|].
      by rewrite list_lookup_fmap, Hi.
    + split; [by rewrite length_fmap|]. symmetry. by eapply Forall2_length.
Qed.

Lemma delta_series_log2_entries_witness :
  outcome (delta_series_log2 exponent_log2 one_mebibyte_table)
  = Ok ([20%float], [4%float], [1048576])
  /\ forall cache_size,
      cache_size ∈ [1048576] <->
      exists sw_time hw_time,
        time_at one_mebibyte_table cache_size "sw" = Some sw_time
        /\ time_at one_mebibyte_table cache_size "hw" = Some hw_time.
Proof.
  split; [vm_compute; reflexivity|].
  apply (proj2 (delta_series_log2_entries exponent_log2 one_mebibyte_table)
           [20%float] [4%float] [1048576]).
  vm_compute. reflexivity.
Defined.

(** C6.  In log mode, when every cache size with both modes passes the
    loop and there is at least one, the plot function returns normally,
    calls [plt.plot] once and [plt.xticks] once, and for every cache size
    [C] with both modes the plotted x-coordinate is [math.log2(C)], the
    tick stands at the same position, and its label is [C // 1048576]
    followed by [MB] when [C >= 1048576] and [C] followed by [B]
    otherwise. *)
Theorem log2_axis_and_tick_labels (libm_log2 : float -> float)
    (experiment_data : experiment_table) :
  Forall (fun c => loggable c = true) (complete_keys experiment_data) ->
  complete_keys experiment_data <> [] ->
  exists xs ys positions labels,
    outcome (plot_time_differences_log2 libm_log2 experiment_data) = Ok tt
    /\ plot_calls (trace (plot_time_differences_log2 libm_log2 experiment_data))
       = [(xs, ys)]
    /\ xticks_calls (trace (plot_time_differences_log2 libm_log2 experiment_data))
       = [(positions, labels, 45)]
    /\ forall C, complete experiment_data C ->
       exists i x d,
         Py.log2 libm_log2 C = Ok x
         /\ delta experiment_data C = Some d
         /\ xs !! i = Some x /\ ys !! i = Some d
         /\ positions !! i = Some x
         /\ labels !! i
            = Some (if decide (1048576 <= C)
                    then Py.str_of_int (C `div` 1048576) +:+ "MB"
                    else Py.str_of_int C +:+ "B").
Proof.
  intros Hall Hne.
  destruct (plot_log2_spec libm_log2 experiment_data) as [Htr Hplot].
  cbv zeta in Hplot, Htr.
  rewrite (proj2 (forallb_forall _ _)) in Hplot.
  2:{ intros c Hc%list_elem_of_In. by eapply Forall_forall in Hall. }
  set (ck := complete_keys experiment_data) in *.
  set (loop := delta_series_log2 libm_log2 experiment_data) in *.
  assert (plot_time_differences_log2 libm_log2 experiment_data
          = IO (trace loop
                ++ log2_chart (Py.log2_positive libm_log2 <$> ck)
                     (omap (delta experiment_data) (sorted_keys experiment_data))
                     (cache_size_label <$> ck)) (Ok tt)) as ->.
  { rewrite Hplot. by destruct ck. }
  exists (Py.log2_positive libm_log2 <$> ck),
    (omap (delta experiment_data) (sorted_keys experiment_data)),
    (Py.log2_positive libm_log2 <$> ck), (cache_size_label <$> ck).
  cbn [trace outcome]. split; [done|].
  apply print_not_plt in Htr.
  split.
  { unfold plot_calls. rewrite omap_app. fold (plot_calls (trace loop)).
    by rewrite no_plt_plot_calls. }
  split.
  { unfold xticks_calls. rewrite omap_app. fold (xticks_calls (trace loop)).
    by rewrite no_plt_xticks_calls. }
  intros C HC.
  apply elem_of_complete_keys, list_elem_of_lookup in HC as [i Hi].
  fold ck in Hi.
  pose proof (complete_in_deltas experiment_data (sorted_keys experiment_data))
    as Hds.
  destruct (Forall2_lookup_l _ _ _ _ _ Hds Hi) as (d & Hd & Hdelta).
  exists i, (Py.log2_positive libm_log2 C), d.
  assert (0 < C) as HCpos.
  { apply loggable_positive. eapply Forall_forall in Hall; [done|].
    by eapply list_elem_of_lookup_2. }
  split. { unfold Py.log2. by destruct (C <=? 0) eqn:E; [lia|]. }
  split; [done|].
  rewrite !list_lookup_fmap, Hi. cbn.
  repeat split; try done.
  unfold cache_size_label. f_equal.
  change (1024 * 1024) with 1048576.
  destruct (decide (1048576 <= C)).
  - by rewrite (proj2 (Z.leb_le _ _)).
  - by rewrite (proj2 (Z.leb_gt _ _)) by lia.
Qed.

Lemma log2_axis_and_tick_labels_witness :
  exists xs ys positions labels,
    outcome (plot_time_differences_log2 exponent_log2 one_mebibyte_table) = Ok tt
    /\ plot_calls
         (trace (plot_time_differences_log2 exponent_log2 one_mebibyte_table))
       = [(xs, ys)]
    /\ xticks_calls
         (trace (plot_time_differences_log2 exponent_log2 one_mebibyte_table))
       = [(positions, labels, 45)]
    /\ forall C, complete one_mebibyte_table C ->
       exists i x d,
         Py.log2 exponent_log2 C = Ok x
         /\ delta one_mebibyte_table C = Some d
         /\ xs !! i = Some x /\ ys !! i = Some d
         /\ positions !! i = Some x
         /\ labels !! i
            = Some (if decide (1048576 <= C)
                    then Py.str_of_int (C `div` 1048576) +:+ "MB"
                    else Py.str_of_int C +:+ "B").
Proof.
  assert (complete_keys one_mebibyte_table = [1048576]) as Hkeys
    by (vm_compute; reflexivity).
  apply (log2_axis_and_tick_labels exponent_log2 one_mebibyte_table).
  - rewrite Hkeys. constructor; [vm_compute; reflexivity|constructor].
  - rewrite Hkeys. discriminate.
Defined.

(** Counterexample to C8 as stated: for the cache sizes 2^53 and 2^53 + 1,
    both with both modes, the two x-coordinates are the same float, in
    linear mode and, whatever the C library's [log2] is, in log mode. *)
Lemma x_coordinates_can_repeat :
  (exists xs ys,
      plot_calls (trace (plot_time_differences huge_pair_table)) = [(xs, ys)]
      /\ strictly_ascending xs = false)
  /\ (forall libm_log2 : float -> float,
        exists xs ys,
          plot_calls (trace (plot_time_differences_log2 libm_log2 huge_pair_table))
          = [(xs, ys)]
          /\ strictly_ascending xs = false).
Proof.
  split.
  - eexists _, _. split; [vm_compute; reflexivity|]. vm_compute. reflexivity.
  - intros libm_log2. eexists _, _. split; [vm_compute; reflexivity|].
    cbn [strictly_ascending]. by rewrite ltb_irrefl.
Qed.

(** C8, amended.  The series is emitted in strictly ascending order of
    cache size: the cache sizes with both modes form a strictly ascending
    list, and the x-coordinates passed to [plt.plot] are, position by
    position, their images under the mode's transform
    ([cache_size / 1048576] in linear mode, [math.log2(cache_size)] in
    log mode). *)
Theorem delta_series_ascending_in_cache_size (libm_log2 : float -> float)
    (experiment_data : experiment_table) :
  StronglySorted Z.lt (complete_keys experiment_data)
  /\ (forall xs ys,
        (xs, ys) ∈ plot_calls (trace (plot_time_differences experiment_data)) ->
        Forall2 (fun c x => Py.truediv c (1024 * 1024) = Ok x)
          (complete_keys experiment_data) xs)
  /\ (forall xs ys,
        (xs, ys) ∈ plot_calls
                     (trace (plot_time_differences_log2 libm_log2 experiment_data)) ->
        Forall2 (fun c x => Py.log2 libm_log2 c = Ok x)
          (complete_keys experiment_data) xs).
Proof.
  split; [apply complete_keys_ascending|]. split.
  - intros xs ys H. by apply plot_linear_spec in H as [H _].
  - intros xs ys.
    destruct (plot_log2_spec libm_log2 experiment_data) as [Htr Hplot].
    cbv zeta in Hplot, Htr. rewrite Hplot. clear Hplot.
    apply print_not_plt in Htr.
    set (ck := complete_keys experiment_data) in *.
    destruct (forallb loggable ck) eqn:Hall.
    + assert (Forall2 (fun c x => Py.log2 libm_log2 c = Ok x) ck
                (Py.log2_positive libm_log2 <$> ck)) as Hxs.
      { apply Forall2_fmap_r, Forall_Forall2_diag, Forall_forall.
        intros c Hc. rewrite forallb_forall in Hall.
        specialize (Hall c (proj1 (list_elem_of_In _ _) Hc)).
        apply loggable_positive in Hall.
        unfold Py.log2. by destruct (c <=? 0) eqn:E; [lia|]. }
      destruct ck as [|c ck'] eqn:Hck; cbn [trace]; unfold plot_calls;
        rewrite omap_app; fold (plot_calls (trace (delta_series_log2 libm_log2 experiment_data)));
        rewrite no_plt_plot_calls by done; cbn.
      * by intros ?%elem_of_nil.
      * by intros [= -> ->]%list_elem_of_singleton.
    + cbn [trace]. rewrite no_plt_plot_calls by done. by intros ?%elem_of_nil.
Qed.

Lemma delta_series_ascending_in_cache_size_witness :
  Forall2 (fun c x => Py.log2 exponent_log2 c = Ok x)
    (complete_keys one_mebibyte_table) [20%float].
Proof.
  apply (proj2 (proj2 (delta_series_ascending_in_cache_size exponent_log2
                         one_mebibyte_table)) [20%float] [4%float]).
  vm_compute. constructor.
Defined.

(** ** The collector *)

(** C7.  When two files of a listing map to the same [(cache_size, mode)]
    and both yield a run time, and no file listed after the later one
    yields a run time for that key, the table the collector returns holds
    the later file's value there, and no other. *)
Theorem last_write_wins (output_dir : string) (earlier later : string * file)
    (before between after : listing) (cache_size : Z) (mode : string)
    (v1 v2 : float) :
  yields earlier cache_size mode = Some v1 ->
  yields later cache_size mode = Some v2 ->
  Forall (fun entry => yields entry cache_size mode = None) after ->
  exists experiment_data,
    outcome (parse_experiment_files output_dir
               (before ++ earlier :: between ++ later :: after))
    = Ok experiment_data
    /\ time_at experiment_data cache_size mode = Some v2
    /\ forall v, time_at experiment_data cache_size mode = Some v -> v = v2.
Proof.
  intros _ Hlater Hafter.
  rewrite parse_experiment_files_eq. eexists. split; [done|].
  assert (time_at (collected (before ++ earlier :: between ++ later :: after))
            cache_size mode = Some v2) as Hv.
  { rewrite time_at_collected.
    replace (before ++ earlier :: between ++ later :: after)
      with ((before ++ earlier :: between) ++ [later] ++ after)
      by (by rewrite <- !app_assoc).
    rewrite !omap_app. cbn [omap list_omap]. rewrite Hlater.
    assert (omap (fun e => yields e cache_size mode) after = []) as ->.
    { induction Hafter as [|e l He Hl IH]; [done|].
      cbn [omap list_omap]. by rewrite He. }
    rewrite app_nil_r. apply last_snoc. }
  split; [done|]. intros v. rewrite Hv. congruence.
Qed.

Lemma last_write_wins_witness :
  exists experiment_data,
    outcome (parse_experiment_files OUTPUT_DIR duplicate_key_listing)
    = Ok experiment_data
    /\ time_at experiment_data 4096 "sw" = Some 6%float
    /\ forall v, time_at experiment_data 4096 "sw" = Some v -> v = 6%float.
Proof.
  apply (last_write_wins OUTPUT_DIR
           ("exp_4096_sw.txt", Ok (mixgraph_log "10.0"))
           ("exp_04096_sw.txt", Ok (mixgraph_log "6.0"))
           [] [("exp_8192_hw.txt", Ok (mixgraph_log "3.5"))]
           [("notes.md", Ok "not a result file")] 4096 "sw" 10%float 6%float).
  - vm_compute. reflexivity.
  - vm_compute. reflexivity.
  - repeat constructor.
Defined.

(** C10.  When a matched file's text contains the metric pattern but the
    captured seconds token is not a float literal, the [ValueError] of
    [float] is caught by the handler of that file: the file is opened,
    the error is printed, no run time is stored (only the cache size's
    entry is made sure to exist), and the scan goes on with the rest of
    the listing. *)
Theorem bad_seconds_token_is_skipped (output_dir : string)
    (filename content tok : string) (cache_size : Z) (mode : string) (e : exn)
    (before after : listing) :
  key_of filename = Some (cache_size, mode) ->
  seconds_token content = Some tok ->
  Py.float_of_str tok = Raise e ->
  forall experiment_data,
    parse_file output_dir experiment_data (filename, Ok content)
    = IO [Open (Py.path_join output_dir filename);
          Print (MsgReadError filename ValueError)]
         (Ok (ensure_key cache_size experiment_data))
    /\ (forall c m, time_at (ensure_key cache_size experiment_data) c m
                    = time_at experiment_data c m)
    /\ parse_experiment_files output_dir (before ++ (filename, Ok content) :: after)
       = IO (concat (file_log output_dir <$> before)
             ++ [Open (Py.path_join output_dir filename);
                 Print (MsgReadError filename ValueError)]
             ++ concat (file_log output_dir <$> after))
            (Ok (foldl record (ensure_key cache_size (collected before)) after)).
Proof.
  intros Hkey Htok Hfloat experiment_data.
  assert (e = ValueError) as ->.
  { unfold Py.float_of_str in Hfloat. destruct (Py.split_dot tok).
    destruct (_ && _); [done|]. by injection Hfloat. }
  assert (forall T, record T (filename, Ok content) = ensure_key cache_size T)
    as Hrec.
  { intros T. unfold record, seconds_of. cbn [fst snd].
    by rewrite Hkey, Htok; cbn; rewrite Hfloat. }
  assert (file_log output_dir (filename, Ok content)
          = [Open (Py.path_join output_dir filename);
             Print (MsgReadError filename ValueError)]) as Hlog.
  { unfold file_log. cbn [fst snd]. by rewrite Hkey, Htok, Hfloat. }
  split; [by rewrite parse_file_eq, Hrec, Hlog|].
  split; [intros; apply time_at_ensure_key|].
  rewrite parse_experiment_files_eq. f_equal.
  - by rewrite fmap_app, concat_app, fmap_cons, concat_cons, Hlog.
  - unfold collected. by rewrite foldl_app; cbn [foldl]; rewrite Hrec.
Qed.

Lemma bad_seconds_token_is_skipped_witness :
  seconds_token (mixgraph_log "1.2.3") = Some "1.2.3"
  /\ Py.float_of_str "1.2.3" = Raise ValueError
  /\ Py.float_of_str "..." = Raise ValueError
  /\ parse_experiment_files OUTPUT_DIR
       [("exp_4096_sw.txt", Ok (mixgraph_log "10.0"));
        ("exp_4096_hw.txt", Ok (mixgraph_log "1.2.3"));
        ("exp_8192_hw.txt", Ok (mixgraph_log "3.5"))]
     = IO [Open "./experiment_results/exp_4096_sw.txt";
           Print (MsgParsed "SW" 4096 10);
           Open "./experiment_results/exp_4096_hw.txt";
           Print (MsgReadError "exp_4096_hw.txt" ValueError);
           Open "./experiment_results/exp_8192_hw.txt";
           Print (MsgParsed "HW" 8192 3.5)]
          (Ok (<[8192 := {["hw" := 3.5%float]}]> {[4096 := {["sw" := 10%float]}]})).
Proof.
  split; [vm_compute; reflexivity|].
  split; [vm_compute; reflexivity|].
  split; [vm_compute; reflexivity|].
  etransitivity.
  - apply (bad_seconds_token_is_skipped OUTPUT_DIR "exp_4096_hw.txt"
             (mixgraph_log "1.2.3") "1.2.3" 4096 "hw" ValueError
             [("exp_4096_sw.txt", Ok (mixgraph_log "10.0"))]
             [("exp_8192_hw.txt", Ok (mixgraph_log "3.5"))]);
      [vm_compute; reflexivity..|exact ∅].
  - vm_compute. reflexivity.
Defined.

(** Counterexample to C4 as stated: after the collector has run on a
    directory holding only [exp_4096_sw.txt] with a text without the
    metric, cache size 4096 is a key of the table it returns. *)
Lemma metricless_file_leaves_its_key :
  ~ (forall content experiment_data,
        seconds_token content = None ->
        outcome (parse_experiment_files OUTPUT_DIR
                   [("exp_4096_sw.txt", Ok content)]) = Ok experiment_data ->
        experiment_data !! 4096 = None).
Proof.
  intros H.
  specialize (H "no metric in this file" {[4096 := ∅]}).
  discriminate H; vm_compute; reflexivity.
Qed.

(** C4, amended.  A matched file whose text does not contain the metric
    pattern is opened and logged as unparsable, and stores no run time:
    every [(cache_size, mode)] lookup is as before, and only the file's
    cache size is made a key, with an empty record if it was not one.
    For a directory holding only [exp_4096_sw.txt] with such a text, the
    collector returns the table with the one key 4096 and no run time,
    and the program goes on to report the missing data and that there is
    nothing to plot. *)
Theorem metricless_file_records_no_time (libm_log2 : float -> float)
    (content : string) :
  seconds_token content = None ->
  (forall output_dir experiment_data filename cache_size mode,
      key_of filename = Some (cache_size, mode) ->
      parse_file output_dir experiment_data (filename, Ok content)
      = IO [Open (Py.path_join output_dir filename);
            Print (MsgNoRunTime filename)]
           (Ok (ensure_key cache_size experiment_data))
      /\ forall c m, time_at (ensure_key cache_size experiment_data) c m
                     = time_at experiment_data c m)
  /\ parse_experiment_files OUTPUT_DIR [("exp_4096_sw.txt", Ok content)]
     = IO [Open "./experiment_results/exp_4096_sw.txt";
           Print (MsgNoRunTime "exp_4096_sw.txt")]
          (Ok {[4096 := ∅]})
  /\ main libm_log2 (Some [("exp_4096_sw.txt", Ok content)])
     = IO [Print MsgParsing;
           Open "./experiment_results/exp_4096_sw.txt";
           Print (MsgNoRunTime "exp_4096_sw.txt");
           Print MsgPlotting; Print (MsgMissing 4096); Print MsgNoComplete;
           Print MsgDone]
          (Ok tt).
Proof.
  intros Htok.
  assert (forall output_dir T filename cache_size mode,
             key_of filename = Some (cache_size, mode) ->
             parse_file output_dir T (filename, Ok content)
             = IO [Open (Py.path_join output_dir filename);
                   Print (MsgNoRunTime filename)]
                  (Ok (ensure_key cache_size T))) as Hfile.
  { intros output_dir T filename cache_size mode Hkey.
    rewrite parse_file_eq. unfold file_log, record, seconds_of. cbn [fst snd].
    by rewrite Hkey, Htok. }
  split; [|split].
  - intros. split; [by eapply Hfile|]. intros. apply time_at_ensure_key.
  - unfold parse_experiment_files. cbn [for_each].
    rewrite (Hfile _ _ _ _ _ key_4096_sw). vm_compute. reflexivity.
  - unfold main, parse_experiment_files. cbn [for_each].
    rewrite (Hfile _ _ _ _ _ key_4096_sw). vm_compute. reflexivity.
Qed.

Lemma metricless_file_records_no_time_witness :
  parse_experiment_files OUTPUT_DIR
    [("exp_4096_sw.txt", Ok "no metric in this file")]
  = IO [Open "./experiment_results/exp_4096_sw.txt";
        Print (MsgNoRunTime "exp_4096_sw.txt")]
       (Ok {[4096 := ∅]}).
Proof.
  apply (metricless_file_records_no_time exponent_log2 "no metric in this file").
  vm_compute. reflexivity.
Defined.

(** C5.  The file name [exp_4096_sw.txt] followed by a newline character
    is not of the form [exp_<digits>_<sw|hw>.txt], yet the file-name
    pattern accepts it with size field [4096] and mode [sw], and the
    collector stores the file's run time under [(4096, sw)]. *)
Theorem trailing_newline_name_is_accepted :
  filename_fields ("exp_4096_sw.txt" +:+ newline) = Some ("4096", "sw")
  /\ ~ (exists d m, well_formed_name ("exp_4096_sw.txt" +:+ newline) d m)
  /\ parse_experiment_files OUTPUT_DIR
       [("exp_4096_sw.txt" +:+ newline, Ok (mixgraph_log "10.0"))]
     = IO [Open ("./experiment_results/exp_4096_sw.txt" +:+ newline);
           Print (MsgParsed "SW" 4096 10)]
          (Ok {[4096 := {["sw" := 10%float]}]}).
Proof.
  assert (filename_fields ("exp_4096_sw.txt" +:+ newline) = Some ("4096", "sw"))
    as Hfields by (vm_compute; reflexivity).
  split; [done|]. split; [|vm_compute; reflexivity].
  intros (d & m & Hname & Hd & Hall & Hm).
  pose proof (filename_fields_sound d m EmptyString Hd Hall Hm (or_introl eq_refl))
    as Hf.
  rewrite append_empty_r, <- Hname, Hfields in Hf. injection Hf as <- <-.
  discriminate Hname.
Qed.

(** ** The whole program *)

(** C2.  When the directory lists exactly [exp_1048576_sw.txt] and
    [exp_1048576_hw.txt], in either order, whose texts yield 10.0 and 6.0
    seconds, and the C library's [log2] is exact at 2^20, the program
    returns normally, plots the single point (20.0, 4.0) and labels its
    tick [1MB]. *)
Theorem scenario_one_mebibyte_pair (libm_log2 : float -> float)
    (sw_content hw_content : string) (dir : listing) :
  libm_log2 1048576%float = 20%float ->
  seconds_of (Ok sw_content) = Some 10%float ->
  seconds_of (Ok hw_content) = Some 6%float ->
  dir ≡ₚ [("exp_1048576_sw.txt", Ok sw_content);
          ("exp_1048576_hw.txt", Ok hw_content)] ->
  outcome (main libm_log2 (Some dir)) = Ok tt
  /\ plot_calls (trace (main libm_log2 (Some dir))) = [([20%float], [4%float])]
  /\ xticks_calls (trace (main libm_log2 (Some dir)))
     = [([20%float], ["1MB"], 45)].
Proof.
  intros Hlog Hsw Hhw Hdir.
  assert (collected dir = one_mebibyte_table) as HT.
  { symmetry in Hdir. apply Permutation_length_2_inv in Hdir as [-> | ->];
      unfold collected, record; cbn [foldl fst snd];
      rewrite ?key_1048576_sw, ?key_1048576_hw, ?Hsw, ?Hhw;
      vm_compute; reflexivity. }
  rewrite main_some. cbv zeta. rewrite HT.
  replace (size one_mebibyte_table =? 0)%nat
    with false by (vm_compute; reflexivity).
  replace (plot_time_differences_log2 libm_log2 one_mebibyte_table)
    with (IO (Print (MsgDifference 1048576 1 10 6 4)
              :: log2_chart [libm_log2 1048576%float] [4%float] ["1MB"]) (Ok tt))
    by (vm_compute; reflexivity).
  cbn [trace outcome]. rewrite scan_plot_calls, scan_xticks_calls, Hlog.
  done.
Qed.

Lemma scenario_one_mebibyte_pair_witness :
  outcome (main exponent_log2
             (Some [("exp_1048576_hw.txt", Ok (mixgraph_log "6.0"));
                    ("exp_1048576_sw.txt", Ok (mixgraph_log "10.0"))])) = Ok tt
  /\ plot_calls
       (trace (main exponent_log2
                 (Some [("exp_1048576_hw.txt", Ok (mixgraph_log "6.0"));
                        ("exp_1048576_sw.txt", Ok (mixgraph_log "10.0"))])))
     = [([20%float], [4%float])]
  /\ xticks_calls
       (trace (main exponent_log2
                 (Some [("exp_1048576_hw.txt", Ok (mixgraph_log "6.0"));
                        ("exp_1048576_sw.txt", Ok (mixgraph_log "10.0"))])))
     = [([20%float], ["1MB"], 45)].
Proof.
  apply (scenario_one_mebibyte_pair exponent_log2
           (mixgraph_log "10.0") (mixgraph_log "6.0")).
  - vm_compute. reflexivity.
  - vm_compute. reflexivity.
  - vm_compute. reflexivity.
  - apply perm_swap.
Defined.

(** C3.  On a directory with a well-formed software/hardware pair for
    cache size 0 the program prints its progress up to the plotting
    banner and ends with the [ValueError] of [math.log2(0)], uncaught:
    exit status 1.  The linear-mode plot function returns normally on the
    same table. *)
Theorem log2_of_zero_is_uncaught (libm_log2 : float -> float) :
  main libm_log2 (Some zero_size_pair)
  = IO [Print MsgParsing;
        Open "./experiment_results/exp_0_sw.txt"; Print (MsgParsed "SW" 0 10);
        Open "./experiment_results/exp_0_hw.txt"; Print (MsgParsed "HW" 0 6);
        Print MsgPlotting]
       (Raise ValueError)
  /\ exit_code (outcome (main libm_log2 (Some zero_size_pair))) = 1
  /\ outcome (plot_time_differences (collected zero_size_pair)) = Ok tt.
Proof. vm_compute. done. Qed.

(** C9.  When the configured directory does not exist the program prints
    the directory-missing message and nothing else, opens no file, makes
    no plot call and exits with status 0.  When the collector's table is
    empty it prints that no valid data was found and stops; more
    generally, whenever no cache size has both modes, the program exits
    with status 0 without a single plot call, having reported either that
    no valid data was found or that there is no complete data to plot. *)
Theorem failure_paths_exit_cleanly (libm_log2 : float -> float) :
  main libm_log2 None = IO [Print (MsgNoDirectory OUTPUT_DIR)] (Ok tt)
  /\ exit_code (outcome (main libm_log2 None)) = 0
  /\ forall dir : listing,
      (collected dir = ∅ ->
       main libm_log2 (Some dir)
       = IO (Print MsgParsing :: concat (file_log OUTPUT_DIR <$> dir)
             ++ [Print MsgNoValidData]) (Ok tt))
      /\ (complete_keys (collected dir) = [] ->
          exit_code (outcome (main libm_log2 (Some dir))) = 0
          /\ filter is_plt (trace (main libm_log2 (Some dir))) = []
          /\ (Print MsgNoValidData ∈ trace (main libm_log2 (Some dir))
              \/ Print MsgNoComplete ∈ trace (main libm_log2 (Some dir)))).
Proof.
  split; [done|]. split; [done|]. intros dir. split.
  - intros Hempty. rewrite main_some. cbv zeta. by rewrite Hempty.
  - intros Hck. rewrite main_some. cbv zeta.
    destruct (size (collected dir) =? 0)%nat.
    + cbn [trace outcome]. split; [done|]. split.
      * rewrite filter_app.
        rewrite no_plt_filter by (constructor; [done|apply scan_no_plt]).
        done.
      * left. apply elem_of_app. right. by apply list_elem_of_singleton.
    + destruct (plot_log2_spec libm_log2 (collected dir)) as [Htr Hplot].
      cbv zeta in Hplot, Htr. rewrite Hck in Hplot. cbn in Hplot.
      rewrite Hplot. cbn [trace outcome]. split; [done|].
      apply print_not_plt in Htr. split.
      * rewrite filter_app.
        rewrite no_plt_filter by (constructor; [done|apply scan_no_plt]).
        cbn [app]. apply no_plt_filter. constructor; [done|].
        apply Forall_app. split; [|by repeat constructor].
        apply Forall_app. split; [done|by repeat constructor].
      * right. rewrite !elem_of_app, !elem_of_cons, !elem_of_app.
        right. right. left. right. by apply list_elem_of_singleton.
Qed.

Lemma failure_paths_exit_cleanly_witness :
  main exponent_log2 (Some [("notes.md", Ok "not a result file")])
  = IO [Print MsgParsing; Print (MsgSkipping "notes.md"); Print MsgNoValidData]
       (Ok tt).
Proof.
  apply (proj1 (proj2 (proj2 (failure_paths_exit_cleanly exponent_log2))
                  [("notes.md", Ok "not a result file")])).
  vm_compute. reflexivity.
Defined.

(** ** Further properties *)

(** X1.  The names the file-name pattern accepts, with the fields it
    extracts: the names [exp_<digits>_<sw|hw>.txt], and those names
    followed by one newline character. *)
Theorem filename_fields_iff (filename d m : string) :
  filename_fields filename = Some (d, m) <->
  well_formed_name filename d m
  \/ exists stem, filename = stem +:+ newline /\ well_formed_name stem d m.
Proof.
  unfold well_formed_name. split.
  - intros (nl & Hname & Hd & Hall & Hm & [-> | ->])%filename_fields_complete.
    + left. by rewrite append_empty_r in Hname.
    + right. exists ("exp_" +:+ d +:+ "_" +:+ m +:+ ".txt").
      split; [|done]. by rewrite Hname, !append_assoc.
  - intros [(-> & Hd & Hall & Hm) | (stem & -> & -> & Hd & Hall & Hm)].
    + rewrite <- (append_empty_r ".txt").
      apply filename_fields_sound; auto.
    + rewrite !append_assoc. apply filename_fields_sound; auto.
Qed.

(** X2.  The scan never aborts: for every listing, whatever the files
    are, the collector returns a table. *)
Theorem collector_never_raises (output_dir : string) (dir : listing) :
  outcome (parse_experiment_files output_dir dir) = Ok (collected dir).
Proof. by rewrite parse_experiment_files_eq. Qed.

(** X3.  For every key, the table holds the run time of the last file of
    the listing that yields one for it, and nothing when no file does. *)
Theorem table_holds_last_yield (output_dir : string) (dir : listing)
    (cache_size : Z) (mode : string) :
  exists experiment_data,
    outcome (parse_experiment_files output_dir dir) = Ok experiment_data
    /\ time_at experiment_data cache_size mode
       = last (omap (fun entry => yields entry cache_size mode) dir).
Proof.
  exists (collected dir). split; [by rewrite parse_experiment_files_eq|].
  apply time_at_collected.
Qed.

(** X4.  A directory with only [exp_2048_sw.txt]: the program reports the
    missing data for cache size 2048, plots nothing and returns
    normally. *)
Theorem scenario_software_only (libm_log2 : float -> float) (content : string)
    (v : float) :
  seconds_of (Ok content) = Some v ->
  outcome (main libm_log2 (Some [("exp_2048_sw.txt", Ok content)])) = Ok tt
  /\ plot_calls (trace (main libm_log2 (Some [("exp_2048_sw.txt", Ok content)])))
     = []
  /\ Print (MsgMissing 2048)
     ∈ trace (main libm_log2 (Some [("exp_2048_sw.txt", Ok content)])).
Proof.
  intros Hv. rewrite main_some. cbv zeta.
  assert (collected [("exp_2048_sw.txt", Ok content)] = {[2048 := {["sw" := v]}]})
    as ->.
  { unfold collected, record. cbn [foldl fst snd].
    replace (key_of "exp_2048_sw.txt") with (Some (2048, "sw"))
      by (vm_compute; reflexivity).
    rewrite Hv. vm_compute. reflexivity. }
  replace (size ({[2048%Z := {["sw" := v]}]} : experiment_table) =? 0)%nat
    with false by (vm_compute; reflexivity).
  replace (plot_time_differences_log2 libm_log2 {[2048 := {["sw" := v]}]})
    with (IO [Print (MsgMissing 2048); Print MsgNoComplete] (Ok tt))
    by (vm_compute; reflexivity).
  cbn [trace outcome]. split; [done|]. split.
  - by rewrite scan_plot_calls.
  - rewrite elem_of_app. right. cbn [app]. rewrite !elem_of_cons. auto.
Qed.

Lemma scenario_software_only_witness :
  outcome (main exponent_log2
             (Some [("exp_2048_sw.txt", Ok (mixgraph_log "10.0"))])) = Ok tt
  /\ plot_calls
       (trace (main exponent_log2
                 (Some [("exp_2048_sw.txt", Ok (mixgraph_log "10.0"))]))) = []
  /\ Print (MsgMissing 2048)
     ∈ trace (main exponent_log2
                (Some [("exp_2048_sw.txt", Ok (mixgraph_log "10.0"))])).
Proof.
  apply (scenario_software_only exponent_log2 (mixgraph_log "10.0") 10%float).
  vm_compute. reflexivity.
Defined.

(** ** Digits *)

Lemma digit_value_range c : Py.is_digit c = true -> 0 <= Py.digit_value c <= 9.
Proof.
  unfold Py.is_digit, Py.digit_value.
  intros [H1%N.leb_le H2%N.leb_le]%andb_prop. lia.
Qed.

Lemma digits_value_nonneg s : forall acc,
  Py.all_digits s = true -> 0 <= acc -> 0 <= Py.digits_value acc s.
Proof.
  induction s as [|c s IH]; intros acc Hall Hacc; [done|].
  cbn in Hall. apply andb_prop in Hall as [Hc Hs].
  cbn [Py.digits_value]. apply IH; [done|].
  pose proof (digit_value_range c Hc). lia.
Qed.

Lemma key_of_inv filename c m :
  key_of filename = Some (c, m) ->
  0 <= c /\ (m = "sw" \/ m = "hw") /\ is_Some (filename_fields filename).
Proof.
  unfold key_of. destruct (filename_fields filename) as [[d m']|] eqn:Hf; [|done].
  cbn. intros [= <- <-].
  apply filename_fields_complete in Hf as (nl & _ & Hd & Hall & Hm & _).
  split; [by apply digits_value_nonneg|]. split; [done|by eexists].
Qed.

(** ** Keys of the collector's table *)

Lemma lookup_ensure_key c' (T : experiment_table) c :
  is_Some (ensure_key c' T !! c) <-> c = c' \/ is_Some (T !! c).
Proof.
  unfold ensure_key. destruct (T !! c') as [r|] eqn:Hc'.
  - split; [by right|]. intros [-> | H]; [by eexists|done].
  - destruct (decide (c = c')) as [->|Hne].
    + rewrite lookup_insert_eq. split; [by left|by eexists].
    + rewrite lookup_insert_ne by done. split; [by right|]. by intros [?|?].
Qed.

Lemma lookup_record (T : experiment_table) entry c :
  is_Some (record T entry !! c) <->
  (exists m, key_of entry.1 = Some (c, m)) \/ is_Some (T !! c).
Proof.
  unfold record. destruct (key_of entry.1) as [[c' m']|].
  - set (T' := ensure_key c' T).
    assert (is_Some (T' !! c) <-> c = c' \/ is_Some (T !! c)) as HT'
      by apply lookup_ensure_key.
    assert (forall T'' : experiment_table,
               (is_Some (T'' !! c) <-> is_Some (T' !! c)) ->
               is_Some (T'' !! c) <->
               (exists m, Some (c', m') = Some (c, m)) \/ is_Some (T !! c)) as Hgo.
    { intros T'' ->. rewrite HT'. split.
      - intros [-> | H]; [left; by eexists|by right].
      - intros [[m [= -> _]] | H]; [by left|by right]. }
    destruct (seconds_of entry.2) as [v|]; apply Hgo; [|done].
    destruct (decide (c = c')) as [->|Hne].
    + rewrite lookup_insert_eq. split; [|by eexists].
      intros _. apply HT'. by left.
    + by rewrite lookup_insert_ne.
  - split; [by right|]. by intros [[m [=]]|?].
Qed.

Lemma lookup_collected dir c :
  is_Some (collected dir !! c) <-> c ∈ matched_sizes dir.
Proof.
  unfold matched_sizes.
  induction dir as [|entry dir IH] using rev_ind.
  - cbn. rewrite lookup_empty. split; [by intros [? [=]]|by intros ?%elem_of_nil].
  - rewrite collected_snoc, lookup_record, IH, omap_app, elem_of_app.
    cbn [omap list_omap].
    destruct (key_of entry.1) as [[c' m']|]; cbn.
    + rewrite list_elem_of_singleton. split.
      * intros [[m [= -> _]] | H]; [by right|by left].
      * intros [H | ->]; [by right|left; by eexists].
    + split.
      * intros [[m [=]] | H]. by left.
      * intros [H | H%elem_of_nil]; [by right|done].
Qed.

(** ** The exit status *)

Section Log2Errors.
Variable libm_log2 : float -> float.
Variable T : experiment_table.



End Log2Errors.

Lemma plot_log2_outcome libm_log2 T :
  outcome (plot_time_differences_log2 libm_log2 T)
  = match outcome (delta_series_log2 libm_log2 T) with
    | Ok _ => Ok tt
    | Raise e => Raise e
    end.
Proof.
  destruct (plot_log2_spec libm_log2 T) as [_ Hplot]. cbv zeta in Hplot.
  pose proof (delta_series_log2_spec libm_log2 T) as Hspec.
  rewrite Hplot.
  destruct (outcome (delta_series_log2 libm_log2 T)) as [acc|e] eqn:Hloop.
  - destruct Hspec as [Hall _].
    rewrite (proj2 (forallb_forall _ _)).
    2:{ intros c Hc%list_elem_of_In. by eapply Forall_forall in Hall. }
    by destruct (complete_keys T).
  - assert (forallb loggable (complete_keys T) = false) as ->.
    { apply not_true_is_false. intros Hall. rewrite forallb_forall in Hall.
      apply Exists_exists in Hspec as (c & Hc & Hlog).
      rewrite (Hall c) in Hlog; [done|]. by apply list_elem_of_In. }
    cbn [outcome]. by erewrite bind_raise by done.
Qed.

Lemma main_outcome libm_log2 dir :
  outcome (main libm_log2 (Some dir))
  = match outcome (delta_series_log2 libm_log2 (collected dir)) with
    | Ok _ => Ok tt
    | Raise e => Raise e
    end.
Proof.
  rewrite main_some. cbv zeta.
  destruct (size (collected dir) =? 0)%nat eqn:Hsize.
  - apply Nat.eqb_eq, map_size_empty_iff in Hsize. by rewrite Hsize.
  - cbn [outcome]. apply plot_log2_outcome.
Qed.

Lemma collected_key_nonneg dir c : is_Some (collected dir !! c) -> 0 <= c.
Proof.
  rewrite lookup_collected. unfold matched_sizes.
  intros (entry & _ & Hkey)%list_elem_of_omap.
  destruct (key_of entry.1) as [[c' m]|] eqn:Hk; [|done].
  cbn in Hkey. injection Hkey as <-. by apply key_of_inv in Hk as [? _].
Qed.



(** ** The calls of the chart *)

Section Log2Trace.
Variable libm_log2 : float -> float.
Variable T : experiment_table.

Lemma log2_step_trace xs ds cs c acc' :
  outcome (log2_step libm_log2 T (xs, ds, cs) c) = Ok acc' ->
  trace (log2_step libm_log2 T (xs, ds, cs) c) = [progress_line T c].
Proof.
  unfold log2_step, progress_line. rewrite !lookup_total_time.
  destruct (time_at T c "sw") as [sw|]; [|done].
  destruct (time_at T c "hw") as [hw|]; [|done].
  unfold Py.log2. destruct (c <=? 0); cbn; [done|].
  by destruct (Py.truediv c (1024 * 1024)).
Qed.

Lemma log2_loop_trace l : forall acc acc',
  outcome (for_each l (log2_step libm_log2 T) acc) = Ok acc' ->
  trace (for_each l (log2_step libm_log2 T) acc) = progress_line T <$> l.
Proof.
  induction l as [|c l IH]; intros [[xs ds] cs] acc'; [done|].
  cbn [for_each]. pose proof (log2_step_trace xs ds cs c) as Hstep.
  destruct (log2_step libm_log2 T (xs, ds, cs) c) as [tr [acc1|e]];
    cbn [outcome trace] in *; unfold mbind, io_bind; cbn [outcome trace];
    [|done].
  intros Hout. rewrite (Hstep acc1 eq_refl), (IH acc1 acc'); [done|].
  by destruct (for_each l _ acc1) as [tr' [?|?]].
Qed.

End Log2Trace.

Lemma plt_calls_app tr1 tr2 : plt_calls (tr1 ++ tr2) = plt_calls tr1 ++ plt_calls tr2.
Proof. apply omap_app. Qed.

Lemma no_plt_plt_calls tr :
  Forall (fun e => is_plt e = false) tr -> plt_calls tr = [].
Proof. induction 1 as [|[] tr He Htr IH]; [done|..]; try done. Qed.

(** The scan makes no [plt] call: those of the program are those of the
    plotting function on the collected table. *)
Lemma main_plt_calls libm_log2 dir :
  plt_calls (trace (main libm_log2 (Some dir)))
  = plt_calls (trace (plot_time_differences_log2 libm_log2 (collected dir))).
Proof.
  rewrite main_some. cbv zeta.
  pose proof (scan_no_plt OUTPUT_DIR dir) as Hscan.
  change (Print MsgParsing :: ?x) with ([Print MsgParsing] ++ x).
  change (Print MsgPlotting :: ?x) with ([Print MsgPlotting] ++ x).
  destruct (size (collected dir) =? 0)%nat eqn:Hsize.
  - apply Nat.eqb_eq, map_size_empty_iff in Hsize. rewrite Hsize.
    cbn [trace]. rewrite !plt_calls_app, (no_plt_plt_calls _ Hscan).
    reflexivity.
  - cbn [trace]. rewrite !plt_calls_app, (no_plt_plt_calls _ Hscan).
    cbn [plt_calls omap list_omap app].
    destruct (outcome _); cbn [omap list_omap]; apply app_nil_r.
Qed.

(** X6.  The chart is drawn whole or not at all.  When the directory is
    missing the program makes no [plt] call.  Otherwise, when at least
    one cache size has both run times and the loop gets through all of
    them, it makes exactly the eleven calls of the chart, in the order
    of the source, with one x-coordinate, one delta and one tick per
    cache size with both run times; in every other case (nothing to
    plot, or the loop raises) it makes no [plt] call at all, so no
    partial figure is saved or shown. *)
Theorem chart_is_whole_or_absent (libm_log2 : float -> float) (dir : listing) :
  plt_calls (trace (main libm_log2 None)) = []
  /\ plt_calls (trace (main libm_log2 (Some dir)))
     = if forallb loggable (complete_keys (collected dir))
          && negb (bool_decide (complete_keys (collected dir) = []))
       then
         [Figure 10 6;
          Plot (Py.log2_positive libm_log2 <$> complete_keys (collected dir))
            (omap (delta (collected dir)) (sorted_keys (collected dir)));
          Title "Absolute Speedup From IAA vs Cache Size";
          Ylabel "Absolute Speedup (s)"; Xlabel "Cache Size (MB)";
          Grid; Axhline 0;
          Xticks (Py.log2_positive libm_log2 <$> complete_keys (collected dir))
            (cache_size_label <$> complete_keys (collected dir)) 45;
          TightLayout; Savefig "absolute_iaa_speedup.png"; Show]
       else [].
Proof.
  split; [done|]. rewrite main_plt_calls.
  destruct (plot_log2_spec libm_log2 (collected dir)) as [Htr Hplot].
  cbv zeta in Htr, Hplot. apply print_not_plt in Htr.
  rewrite Hplot. clear Hplot.
  set (ck := complete_keys (collected dir)).
  destruct (forallb loggable ck); cbn [andb].
  - destruct ck as [|c ck'] eqn:Hck; cbn [trace outcome];
      rewrite !plt_calls_app, (no_plt_plt_calls _ Htr); [done|].
    rewrite bool_decide_eq_false_2 by done. reflexivity.
  - cbn [trace]. by rewrite (no_plt_plt_calls _ Htr).
Qed.

(** ** Files opened *)





(** ** The check for an empty table *)

Lemma for_each_trace_Forall {A S} (P : event -> Prop) (body : S -> A -> io S) xs :
  (forall s x, Forall P (trace (body s x))) ->
  forall s, Forall P (trace (for_each xs body s)).
Proof.
  intros Hbody. induction xs as [|x xs IH]; intros s; [constructor|].
  cbn [for_each]. specialize (Hbody s x).
  destruct (body s x) as [tr [s'|e]]; unfold mbind, io_bind;
    cbn [outcome trace] in *; [|done].
  apply Forall_app. split; [done|apply IH].
Qed.

Lemma log2_step_progress libm_log2 T acc c :
  Forall is_progress (trace (log2_step libm_log2 T acc c)).
Proof.
  destruct acc as [[xs ds] cs]. unfold log2_step.
  destruct ((T !!! c) !! "sw") as [sw|]; [|by repeat constructor].
  destruct ((T !!! c) !! "hw") as [hw|]; [|by repeat constructor].
  unfold Py.log2. destruct (c <=? 0); cbn; [constructor|].
  destruct (Py.truediv c (1024 * 1024)); cbn; by repeat constructor.
Qed.

Lemma file_log_not_no_valid output_dir entry :
  Forall (fun e => e <> Print MsgNoValidData) (file_log output_dir entry).
Proof.
  unfold file_log. destruct (key_of entry.1) as [[c m]|]; [|by repeat constructor].
  constructor; [done|].
  destruct entry.2 as [content|e]; [|by repeat constructor].
  destruct (seconds_token content) as [tok|]; [|by repeat constructor].
  destruct (Py.float_of_str tok); by repeat constructor.
Qed.

Lemma scan_not_no_valid output_dir (dir : listing) :
  Forall (fun e => e <> Print MsgNoValidData)
    (concat (file_log output_dir <$> dir)).
Proof.
  induction dir as [|entry dir IH]; [constructor|].
  cbn. apply Forall_app. split; [apply file_log_not_no_valid|done].
Qed.

Lemma matched_names_nil dir : matched_names dir = [] <-> collected dir = ∅.
Proof.
  split.
  - intros Hnil. apply map_empty. intros c.
    apply eq_None_not_Some. rewrite lookup_collected. unfold matched_sizes.
    intros (entry & Hin & Hkey)%list_elem_of_omap.
    destruct (key_of entry.1) as [[c' m]|] eqn:Hk; [|done].
    assert (entry.1 ∈ matched_names dir) as Hm.
    { apply list_elem_of_omap. exists entry. by rewrite Hk. }
    rewrite Hnil in Hm. by apply elem_of_nil in Hm.
  - intros Hempty. destruct (matched_names dir) as [|name names] eqn:Hm; [done|].
    assert (name ∈ matched_names dir) as Hin by (rewrite Hm; left).
    apply list_elem_of_omap in Hin as (entry & Hin & Hkey).
    destruct (key_of entry.1) as [[c m]|] eqn:Hk; [|done].
    assert (is_Some (collected dir !! c)) as Hsome.
    { apply lookup_collected, list_elem_of_omap. exists entry. by rewrite Hk. }
    rewrite Hempty, lookup_empty in Hsome. by destruct Hsome.
Qed.

(** X8.  On an existing directory the program prints the line
    [No valid experiment data found.] exactly when no name of the
    listing matches the file-name pattern: a single matching name, even
    of an unreadable or metric-less file, is enough to pass the check of
    [main]. *)
Theorem no_valid_data_iff_no_name_matches (libm_log2 : float -> float)
    (dir : listing) :
  Print MsgNoValidData ∈ trace (main libm_log2 (Some dir)) <->
  Forall (fun entry => filename_fields entry.1 = None) dir.
Proof.
  assert (Forall (fun entry => filename_fields entry.1 = None) dir
          <-> collected dir = ∅) as ->.
  { rewrite <- matched_names_nil. unfold matched_names, key_of. split.
    - induction 1 as [|entry dir' He Hdir IH]; [reflexivity|].
      cbn [omap list_omap]. rewrite He. cbn. exact IH.
    - induction dir as [|entry dir' IH]; [constructor|].
      cbn [omap list_omap].
      destruct (filename_fields entry.1) as [[d m]|] eqn:He; [done|].
      intros H. constructor; [done|by apply IH]. }
  rewrite main_some. cbv zeta.
  destruct (size (collected dir) =? 0)%nat eqn:Hsize.
  - apply Nat.eqb_eq, map_size_empty_iff in Hsize. split; [done|].
    intros _. cbn [trace]. apply elem_of_app. right. left.
  - apply Nat.eqb_neq in Hsize. rewrite map_size_empty_iff in Hsize.
    split; [|done]. cbn [trace]. intros Hin. exfalso.
    apply elem_of_app in Hin as [Hin | Hin].
    + apply elem_of_cons in Hin as [[=] | Hin].
      pose proof (scan_not_no_valid OUTPUT_DIR dir) as Hlog.
      eapply Forall_forall in Hlog; [|done]. done.
    + apply elem_of_cons in Hin as [[=] | Hin].
      destruct (plot_log2_spec libm_log2 (collected dir)) as [_ Hplot].
      cbv zeta in Hplot. rewrite Hplot in Hin. clear Hplot.
      pose proof (for_each_trace_Forall is_progress
                    (log2_step libm_log2 (collected dir))
                    (sorted_keys (collected dir))
                    (log2_step_progress libm_log2 (collected dir))
                    ([], [], [])) as Hloop.
      fold (delta_series_log2 libm_log2 (collected dir)) in Hloop.
      assert (Print MsgNoValidData
              ∉ trace (delta_series_log2 libm_log2 (collected dir))) as Hnot.
      { intros H. eapply Forall_forall in Hloop; [|done]. done. }
      destruct (forallb loggable _); [destruct (complete_keys _)|];
        cbn [trace outcome] in Hin;
        repeat (apply elem_of_app in Hin as [Hin | Hin]); try done;
        try (destruct (outcome _)); cbn in Hin;
        repeat (apply elem_of_cons in Hin as [[=] | Hin]);
        by apply elem_of_nil in Hin.
Qed.

(** ** The shape of the table *)

Lemma yields_inv entry c m v :
  yields entry c m = Some v ->
  key_of entry.1 = Some (c, m) /\ seconds_of entry.2 = Some v.
Proof.
  unfold yields. destruct (key_of entry.1) as [[c' m']|]; [|done].
  destruct (decide (c' = c /\ m' = m)) as [[-> ->]|]; [|done]. done.
Qed.

(** X9.  What the table of the collector can hold: its keys are exactly
    the cache sizes of the matched names of the listing; every key is a
    natural number; and a stored run time sits under [sw] or [hw] and
    was read from a listed file of that key. *)
Theorem table_shape (output_dir : string) (dir : listing) :
  exists experiment_data,
    outcome (parse_experiment_files output_dir dir) = Ok experiment_data
    /\ (forall cache_size,
          is_Some (experiment_data !! cache_size) <->
          exists entry mode,
            entry ∈ dir /\ key_of entry.1 = Some (cache_size, mode))
    /\ (forall cache_size,
          is_Some (experiment_data !! cache_size) -> 0 <= cache_size)
    /\ (forall cache_size mode v,
          time_at experiment_data cache_size mode = Some v ->
          (mode = "sw" \/ mode = "hw")
          /\ exists entry,
               entry ∈ dir /\ key_of entry.1 = Some (cache_size, mode)
               /\ seconds_of entry.2 = Some v).
Proof.
  exists (collected dir). split; [by rewrite parse_experiment_files_eq|].
  split; [|split].
  - intros c. rewrite lookup_collected. unfold matched_sizes.
    rewrite list_elem_of_omap. split.
    + intros (entry & Hin & Hkey).
      destruct (key_of entry.1) as [[c' m]|] eqn:Hk; [|done].
      cbn in Hkey. injection Hkey as ->. by exists entry, m.
    + intros (entry & m & Hin & Hkey). exists entry. by rewrite Hkey.
  - apply collected_key_nonneg.
  - intros c m v. rewrite time_at_collected. intros Hlast.
    apply last_Some in Hlast as [l' Hl'].
    assert (v ∈ omap (fun e => yields e c m) dir) as Hin.
    { rewrite Hl'. apply elem_of_app. right. left. }
    apply list_elem_of_omap in Hin as (entry & Hin & [Hkey Hsec]%yields_inv).
    split; [by apply key_of_inv in Hkey as (_ & ? & _)|]. by exists entry.
Qed.

(** X10.  A matched file that cannot be opened or read is skipped: the
    exception is caught, the collector prints [Error reading file] with
    its name, stores no run time (every run time of the table is as
    before), keeps the key of the file, and goes on with the rest of the
    listing. *)
Theorem unreadable_file_is_skipped (output_dir filename : string)
    (cache_size : Z) (mode : string) (e : exn) (before after : listing)
    (experiment_data : experiment_table) :
  key_of filename = Some (cache_size, mode) ->
  parse_file output_dir experiment_data (filename, Raise e)
  = IO [Open (Py.path_join output_dir filename);
        Print (MsgReadError filename e)]
       (Ok (ensure_key cache_size experiment_data))
  /\ (forall c m, time_at (ensure_key cache_size experiment_data) c m
                  = time_at experiment_data c m)
  /\ parse_experiment_files output_dir (before ++ (filename, Raise e) :: after)
     = IO (concat (file_log output_dir <$> before)
           ++ [Open (Py.path_join output_dir filename);
               Print (MsgReadError filename e)]
           ++ concat (file_log output_dir <$> after))
          (Ok (foldl record (ensure_key cache_size (collected before)) after)).
Proof.
  intros Hkey.
  assert (forall T, record T (filename, Raise e) = ensure_key cache_size T)
    as Hrec.
  { intros T. unfold record. cbn [fst snd]. by rewrite Hkey. }
  assert (file_log output_dir (filename, Raise e)
          = [Open (Py.path_join output_dir filename);
             Print (MsgReadError filename e)]) as Hlog.
  { unfold file_log. cbn [fst snd]. by rewrite Hkey. }
  split; [by rewrite parse_file_eq, Hrec, Hlog|].
  split; [intros; apply time_at_ensure_key|].
  rewrite parse_experiment_files_eq. f_equal.
  - by rewrite fmap_app, concat_app, fmap_cons, concat_cons, Hlog.
  - unfold collected. by rewrite foldl_app; cbn [foldl]; rewrite Hrec.
Qed.

Lemma unreadable_file_is_skipped_witness :
  parse_file OUTPUT_DIR ∅ ("exp_4096_sw.txt", Raise OSError)
  = IO [Open (Py.path_join OUTPUT_DIR "exp_4096_sw.txt");
        Print (MsgReadError "exp_4096_sw.txt" OSError)]
       (Ok (ensure_key 4096 ∅))
  /\ (forall c m, time_at (ensure_key 4096 ∅) c m = time_at ∅ c m)
  /\ parse_experiment_files OUTPUT_DIR
       ([] ++ ("exp_4096_sw.txt", Raise OSError) :: one_mebibyte_pair)
     = IO (concat (file_log OUTPUT_DIR <$> [])
           ++ [Open (Py.path_join OUTPUT_DIR "exp_4096_sw.txt");
               Print (MsgReadError "exp_4096_sw.txt" OSError)]
           ++ concat (file_log OUTPUT_DIR <$> one_mebibyte_pair))
          (Ok (foldl record (ensure_key 4096 (collected [])) one_mebibyte_pair)).
Proof.
  apply (unreadable_file_is_skipped OUTPUT_DIR "exp_4096_sw.txt" 4096 "sw"
           OSError [] one_mebibyte_pair ∅).
  vm_compute. reflexivity.
Defined.

(** X11.  The lines of the log-mode loop.  When the loop gets through,
    it prints exactly one line per key of the table, in ascending order
    of cache size: the difference line for a cache size with both run
    times, the missing-data line otherwise; so the missing-data line of
    a cache size is printed exactly when it is a key without both run
    times. *)
Theorem log2_loop_lines (libm_log2 : float -> float)
    (experiment_data : experiment_table) :
  is_ok (outcome (delta_series_log2 libm_log2 experiment_data)) = true ->
  trace (delta_series_log2 libm_log2 experiment_data)
  = progress_line experiment_data <$> sorted_keys experiment_data
  /\ (forall cache_size,
        Print (MsgMissing cache_size)
        ∈ trace (delta_series_log2 libm_log2 experiment_data) <->
        is_Some (experiment_data !! cache_size)
        /\ ~ complete experiment_data cache_size)
  /\ length (trace (delta_series_log2 libm_log2 experiment_data))
     = size experiment_data.
Proof.
  intros Hok.
  pose proof (delta_series_log2_spec libm_log2 experiment_data) as Hspec.
  destruct (outcome (delta_series_log2 libm_log2 experiment_data))
    as [acc|e] eqn:Hout; [|done].
  destruct Hspec as [Hall _].
  pose proof (log2_loop_trace libm_log2 experiment_data
                (sorted_keys experiment_data) ([], [], []) acc Hout) as Htr.
  fold (delta_series_log2 libm_log2 experiment_data) in Htr.
  split; [done|]. split.
  - intros c. rewrite Htr, list_elem_of_fmap. split.
    + intros (c' & Hline & Hin). unfold progress_line in Hline.
      destruct (time_at experiment_data c' "sw") as [sw|] eqn:Hsw;
        [destruct (time_at experiment_data c' "hw") as [hw|] eqn:Hhw|].
      * assert (loggable c' = true) as Hlog.
        { eapply Forall_forall in Hall; [done|].
          apply elem_of_complete_keys. by exists sw, hw. }
        unfold loggable in Hlog. apply andb_prop in Hlog as [_ Hdiv].
        by destruct (Py.truediv c' (1024 * 1024)).
      * injection Hline as ->. split; [by apply elem_of_sorted_keys|].
        intros (? & ? & _ & ?). congruence.
      * injection Hline as ->. split; [by apply elem_of_sorted_keys|].
        intros (? & ? & ? & _). congruence.
    + intros [Hkey Hnot]. exists c. split; [|by apply elem_of_sorted_keys].
      unfold progress_line.
      destruct (time_at experiment_data c "sw") as [sw|] eqn:Hsw; [|done].
      destruct (time_at experiment_data c "hw") as [hw|] eqn:Hhw; [|done].
      destruct Hnot. by exists sw, hw.
  - rewrite Htr, length_fmap. unfold sorted_keys, Py.sorted.
    rewrite merge_sort_Permutation. by rewrite <- size_dom.
Qed.

Lemma log2_loop_lines_witness :
  trace (delta_series_log2 exponent_log2 one_mebibyte_table)
  = progress_line one_mebibyte_table <$> sorted_keys one_mebibyte_table
  /\ (forall cache_size,
        Print (MsgMissing cache_size)
        ∈ trace (delta_series_log2 exponent_log2 one_mebibyte_table) <->
        is_Some (one_mebibyte_table !! cache_size)
        /\ ~ complete one_mebibyte_table cache_size)
  /\ length (trace (delta_series_log2 exponent_log2 one_mebibyte_table))
     = size one_mebibyte_table.
Proof.
  apply (log2_loop_lines exponent_log2 one_mebibyte_table).
  vm_compute. reflexivity.
Defined.

(** ** Independence of the listing order *)

Lemma Permutation_short {A} (l l' : list A) :
  l ≡ₚ l' -> (length l <= 1)%nat -> l = l'.
Proof.
  intros Hperm Hlen. destruct l as [|x [|y l]]; cbn in Hlen; [| |lia].
  - by apply Permutation_nil_l in Hperm.
  - by apply Permutation_singleton_l in Hperm.
Qed.

Lemma lookup_time_at (T : experiment_table) c r m :
  T !! c = Some r -> r !! m = time_at T c m.
Proof. unfold time_at. by intros ->. Qed.

(** X12.  The order in which the directory is listed does not matter
    unless two files yield a run time for the same key: for two listings
    of the same entries in which every (cache size, mode) gets a run
    time from at most one file, the collector builds the same table, and
    the program ends the same way and draws the same chart. *)
Theorem listing_order_is_irrelevant (libm_log2 : float -> float)
    (dir dir' : listing) :
  dir ≡ₚ dir' ->
  (forall cache_size mode,
      (length (omap (fun entry => yields entry cache_size mode) dir) <= 1)%nat) ->
  collected dir = collected dir'
  /\ outcome (main libm_log2 (Some dir)) = outcome (main libm_log2 (Some dir'))
  /\ plt_calls (trace (main libm_log2 (Some dir)))
     = plt_calls (trace (main libm_log2 (Some dir'))).
Proof.
  intros Hperm Hone.
  assert (collected dir = collected dir') as HT.
  { apply map_eq. intros c.
    assert (is_Some (collected dir !! c) <-> is_Some (collected dir' !! c)) as Hdom.
    { rewrite !lookup_collected. unfold matched_sizes. by rewrite Hperm. }
    destruct (collected dir !! c) as [r|] eqn:Hr,
             (collected dir' !! c) as [r'|] eqn:Hr'.
    - f_equal. apply map_eq. intros m.
      rewrite (lookup_time_at _ _ _ m Hr), (lookup_time_at _ _ _ m Hr').
      rewrite !time_at_collected. f_equal.
      apply Permutation_short; [by rewrite Hperm|apply Hone].
    - destruct Hdom as [Hdom _]. by destruct Hdom.
    - destruct Hdom as [_ Hdom]. by destruct Hdom.
    - done. }
  split; [done|]. split.
  - by rewrite !main_outcome, HT.
  - by rewrite !main_plt_calls, HT.
Qed.

Lemma one_mebibyte_pair_yields_once cache_size mode :
  (length (omap (fun entry => yields entry cache_size mode) one_mebibyte_pair)
   <= 1)%nat.
Proof.
  unfold one_mebibyte_pair. cbn [omap list_omap]. unfold yields. cbn [fst snd].
  rewrite key_1048576_sw, key_1048576_hw.
  destruct (decide (1048576 = cache_size /\ "sw" = mode)) as [[_ <-]|].
  - rewrite decide_False by (by intros [_ [=]]).
    destruct (seconds_of _); cbn; lia.
  - destruct (decide _); [|cbn; lia].
    destruct (seconds_of _); cbn; lia.
Qed.

Lemma listing_order_is_irrelevant_witness :
  collected one_mebibyte_pair = collected (reverse one_mebibyte_pair)
  /\ outcome (main exponent_log2 (Some one_mebibyte_pair))
     = outcome (main exponent_log2 (Some (reverse one_mebibyte_pair)))
  /\ plt_calls (trace (main exponent_log2 (Some one_mebibyte_pair)))
     = plt_calls (trace (main exponent_log2 (Some (reverse one_mebibyte_pair)))).
Proof.
  apply (listing_order_is_irrelevant exponent_log2 one_mebibyte_pair
           (reverse one_mebibyte_pair)).
  - apply perm_swap.
  - apply one_mebibyte_pair_yields_once.
Defined.

(** ** The metric pattern as a scanner *)

Lemma idle_sound r c : idle r c = true ->
  forall s g k, Re.run r (String c s) g k = k (String c s) g.
Proof.
  induction r as [|c'|p|p| |r1 IH1 r2 IH2|n r IH|r1 IH1 r2 IH2];
    cbn [idle]; intros H s g k; try done.
  - cbn. by destruct (p c).
  - apply andb_prop in H as [H1 H2]. cbn [Re.run].
    rewrite IH1 by done. by apply IH2.
Qed.

Lemma blocked_sound r c : blocked r c = true ->
  forall s g k, Re.run r (String c s) g k = None.
Proof.
  induction r as [|c'|p|p| |r1 IH1 r2 IH2|n r IH|r1 IH1 r2 IH2];
    cbn [blocked]; intros H s g k; try done.
  - cbn. by destruct (Ascii.eqb c' c).
  - cbn. by destruct (p c).
  - apply andb_prop in H as [H1 H2]. cbn [Re.run].
    rewrite IH1 by done. by apply IH2.
  - cbn [Re.run]. by apply IH.
  - cbn [Re.run]. apply orb_prop in H as [H | [H1 H2]%andb_prop].
    + by apply IH1.
    + rewrite idle_sound by done. by apply IH2.
Qed.

Lemma run_lit w s g k :
  Re.run (Re.lit w) s g k
  = match strip w s with Some s' => k s' g | None => None end.
Proof.
  revert s. induction w as [|c w IH]; intros s; [done|].
  cbn [Re.lit Re.run strip]. destruct s as [|c' s]; [done|].
  destruct (Ascii.eqb c c'); [apply IH|done].
Qed.

Lemma run_lit_cat w r s g k :
  Re.run (Re.Cat (Re.lit w) r) s g k
  = match strip w s with Some s' => Re.run r s' g k | None => None end.
Proof. cbn [Re.run]. apply run_lit. Qed.

Lemma run_star_cat p r s g k :
  (forall c, p c = true -> blocked r c = true) ->
  Re.run (Re.Cat (Re.Star p) r) s g k = Re.run r (skip p s) g k.
Proof.
  intros H. cbn [Re.run]. apply star_skip.
  intros c s' Hc. by apply blocked_sound, H.
Qed.

Lemma span_empty p s :
  span p s = EmptyString <->
  match s with String c _ => p c = false | EmptyString => True end.
Proof. destruct s as [|c s]; [done|]. cbn. by destruct (p c). Qed.

Lemma run_plus_cat p r s g k :
  (forall c, p c = true -> blocked r c = true) ->
  Re.run (Re.Cat (Re.Plus p) r) s g k
  = if decide (span p s = EmptyString) then None else Re.run r (skip p s) g k.
Proof.
  intros H. cbn [Re.run]. destruct s as [|c s]; [done|].
  cbn [span skip]. destruct (p c) eqn:Hc; [|done].
  rewrite decide_False by done. apply star_skip.
  intros c' s' Hc'. by apply blocked_sound, H.
Qed.

Lemma consumed_skip p s : Re.consumed s (skip p s) = span p s.
Proof. rewrite <- (span_skip p s) at 1. apply consumed_app. Qed.

Lemma run_group_plus_cat n p r s g k :
  (forall c, p c = true -> blocked r c = true) ->
  Re.run (Re.Cat (Re.Grp n (Re.Plus p)) r) s g k
  = if decide (span p s = EmptyString) then None
    else Re.run r (skip p s) (<[n := span p s]> g) k.
Proof.
  intros H. cbn [Re.run]. destruct s as [|c s]; [done|].
  cbn [span skip]. destruct (p c) eqn:Hc; [|done].
  rewrite decide_False by done.
  rewrite star_skip.
  - pose proof (consumed_skip p (String c s)) as Hcons.
    cbn [span skip] in Hcons. rewrite Hc in Hcons. by rewrite Hcons.
  - intros c' s' Hc'. by apply blocked_sound, H.
Qed.

Ltac by_cases_on_char :=
  let c := fresh "c" in
  intros c; destruct c as [[] [] [] [] [] [] [] []]; vm_compute;
  solve [reflexivity | discriminate | auto].

(** The metric pattern, anchored, is the scanner. *)
Lemma rematch_scan_metric s :
  (g ← Re.rematch MIXGRAPH_TIME_REGEX s; Some (Re.group g 1)) = scan_metric s.
Proof.
  unfold Re.rematch, MIXGRAPH_TIME_REGEX, scan_metric.
  rewrite run_lit_cat.
  destruct (strip "mixgraph" s) as [s1|]; [|done]. cbn [mbind option_bind].
  rewrite run_star_cat by by_cases_on_char.
  rewrite run_lit_cat.
  destruct (strip ":" (skip Py.is_space s1)) as [s2|]; [|done].
  cbn [mbind option_bind].
  rewrite run_star_cat by by_cases_on_char.
  rewrite run_plus_cat by by_cases_on_char.
  destruct (decide (span digit_or_dot (skip Py.is_space s2) = "")); [done|].
  rewrite run_star_cat by by_cases_on_char.
  rewrite run_lit_cat.
  destruct (strip "micros/op" _) as [s3|]; [|done]. cbn [mbind option_bind].
  rewrite run_star_cat by by_cases_on_char.
  rewrite run_plus_cat by by_cases_on_char.
  destruct (decide (span digit_or_dot (skip Py.is_space s3) = "")); [done|].
  rewrite run_star_cat by by_cases_on_char.
  rewrite run_lit_cat.
  destruct (strip "ops/sec" _) as [s4|]; [|done]. cbn [mbind option_bind].
  rewrite run_star_cat by by_cases_on_char.
  rewrite run_group_plus_cat by by_cases_on_char.
  destruct (decide (span digit_or_dot (skip Py.is_space s4) = "")); [done|].
  rewrite run_star_cat by by_cases_on_char.
  rewrite run_lit.
  destruct (strip "seconds" _) as [s5|]; [|done]. cbn [mbind option_bind].
  unfold Re.group. by rewrite lookup_total_insert_eq.
Qed.

Lemma seconds_token_unfold s :
  seconds_token s
  = match scan_metric s with
    | Some tok => Some tok
    | None =>
        match s with
        | String _ s' => seconds_token s'
        | EmptyString => None
        end
    end.
Proof.
  rewrite <- rematch_scan_metric. unfold seconds_token.
  destruct s as [|c s]; cbn [Re.search];
    by destruct (Re.rematch MIXGRAPH_TIME_REGEX _).
Qed.

(** ** The seconds token *)

Lemma scan_metric_token s tok :
  scan_metric s = Some tok ->
  tok <> EmptyString /\ Py.all_chars digit_or_dot tok = true
  /\ is_Some (strip "mixgraph" s).
Proof.
  unfold scan_metric.
  destruct (strip "mixgraph" s) as [s1|]; [|done]. cbn [mbind option_bind].
  destruct (strip ":" _) as [s2|]; [|done]. cbn [mbind option_bind].
  destruct (decide _); [done|].
  destruct (strip "micros/op" _) as [s3|]; [|done]. cbn [mbind option_bind].
  destruct (decide _); [done|].
  destruct (strip "ops/sec" _) as [s4|]; [|done]. cbn [mbind option_bind].
  destruct (decide _) as [|Hne]; [done|].
  destruct (strip "seconds" _) as [s5|]; [|done]. cbn [mbind option_bind].
  intros [= <-]. split; [done|]. split; [apply all_chars_span|by eexists].
Qed.

(** X13.  What the metric pattern can capture: whenever the search of a
    text finds the pattern, the captured seconds field is a nonempty
    string of decimal digits and dots, and the word [mixgraph] occurs in
    the text; a text without that word yields nothing. *)
Theorem seconds_token_shape (content tok : string) :
  seconds_token content = Some tok ->
  tok <> EmptyString
  /\ Py.all_chars digit_or_dot tok = true
  /\ occurs "mixgraph" content = true.
Proof.
  induction content as [|c content IH]; rewrite seconds_token_unfold.
  - destruct (scan_metric "") as [t|] eqn:Hscan; [|done].
    by apply scan_metric_token in Hscan as (_ & _ & [? [=]]).
  - destruct (scan_metric (String c content)) as [t|] eqn:Hscan.
    + intros [= ->]. apply scan_metric_token in Hscan as (? & ? & [s1 Hs1]).
      split; [done|]. split; [done|]. cbn [occurs]. by rewrite Hs1.
    + intros (? & ? & Hocc)%IH. split; [done|]. split; [done|].
      cbn [occurs]. by destruct (strip "mixgraph" (String c content)).
Qed.

Lemma seconds_token_shape_witness :
  "10.0" <> EmptyString
  /\ Py.all_chars digit_or_dot "10.0" = true
  /\ occurs "mixgraph" (mixgraph_log "10.0") = true.
Proof.
  apply (seconds_token_shape (mixgraph_log "10.0") "10.0").
  vm_compute. reflexivity.
Defined.

(** ** Which tokens [float] accepts *)

Lemma all_digits_count s :
  Py.all_chars digit_or_dot s = true ->
  (Py.all_digits s = true <-> count_chars is_dot s = 0%nat)
  /\ (count_chars Py.is_digit s + count_chars is_dot s = String.length s)%nat.
Proof.
  induction s as [|c s IH]; [done|].
  cbn. intros [Hc Hs]%andb_prop. destruct (IH Hs) as [IH1 IH2].
  unfold digit_or_dot, is_dot in *.
  destruct (Py.is_digit c) eqn:Hd, (Ascii.eqb c ".") eqn:He; cbn in *.
  - apply Ascii.eqb_eq in He. subst c. done.
  - split; [done|lia].
  - split; [done|lia].
  - done.
Qed.

Lemma split_dot_spec s :
  Py.all_chars digit_or_dot s = true ->
  Py.all_digits (Py.split_dot s).1 = true
  /\ match (Py.split_dot s).2 with
     | None =>
         count_chars is_dot s = 0%nat
         /\ count_chars Py.is_digit s = String.length (Py.split_dot s).1
     | Some r =>
         Py.all_chars digit_or_dot r = true
         /\ count_chars is_dot s = S (count_chars is_dot r)
         /\ (count_chars Py.is_digit s
             = String.length (Py.split_dot s).1 + count_chars Py.is_digit r)%nat
     end.
Proof.
  induction s as [|c s IH]; [done|].
  cbn [Py.all_chars]. intros [Hc Hs]%andb_prop. specialize (IH Hs).
  cbn [Py.split_dot count_chars].
  destruct (Ascii.eqb c ".") eqn:He.
  - assert (is_dot c = true) as -> by done.
    apply Ascii.eqb_eq in He. subst c. cbn [fst snd].
    change (Py.is_digit ".") with false. cbn. done.
  - assert (is_dot c = false) as -> by done.
    unfold digit_or_dot in Hc. rewrite He, orb_false_r in Hc.
    destruct (Py.split_dot s) as [i f]. cbn [fst snd] in *.
    destruct IH as [Hi Hf]. rewrite Hc.
    split; [by cbn; rewrite Hc|].
    destruct f as [r|]; cbn [String.length]; intuition lia.
Qed.

(** X14.  Which captured seconds fields make the collector store a run
    time: on a string of digits and dots, [float] returns a number
    exactly when the string has at most one dot and at least one digit;
    on every other such string it raises [ValueError], which the
    collector reports as a read error. *)
Theorem float_accepts_one_dot_and_a_digit (tok : string) :
  Py.all_chars digit_or_dot tok = true ->
  (is_ok (Py.float_of_str tok) = true <->
   (count_chars is_dot tok <= 1)%nat /\ (1 <= count_chars Py.is_digit tok)%nat)
  /\ (is_ok (Py.float_of_str tok) = false ->
      Py.float_of_str tok = Raise ValueError).
Proof.
  intros Htok. pose proof (split_dot_spec tok Htok) as [Hi Hf].
  unfold Py.float_of_str.
  destruct (Py.split_dot tok) as [i f]. cbn [fst snd] in *.
  match goal with |- context [if ?b then _ else _] => set (cond := b) end.
  assert (cond = true <->
          (count_chars is_dot tok <= 1)%nat
          /\ (1 <= count_chars Py.is_digit tok)%nat) as Hcond.
  { subst cond. rewrite !andb_true_iff, negb_true_iff, Nat.eqb_neq.
    destruct f as [r|]; cbn [default].
    - destruct Hf as (Hr & Hdots & Hdigits).
      destruct (all_digits_count r Hr) as [Hall Hlen]. rewrite Hall.
      split.
      + intros [[_ H0] Hne]. unfold id in Hne. lia.
      + intros [Hle Hge]. unfold id. split; [split; [done|lia]|lia].
    - destruct Hf as [Hdots Hdigits]. cbn [String.length].
      split.
      + intros [_ Hne]. lia.
      + intros [Hle Hge]. split; [done|lia]. }
  destruct cond; cbn [is_ok].
  - split; [|done]. split; [intros _; by apply Hcond|done].
  - split; [|done]. split; [done|]. intros H. by apply Hcond in H.
Qed.

Lemma float_accepts_one_dot_and_a_digit_witness :
  (is_ok (Py.float_of_str "1.2.3") = true <->
   (count_chars is_dot "1.2.3" <= 1)%nat
   /\ (1 <= count_chars Py.is_digit "1.2.3")%nat)
  /\ (is_ok (Py.float_of_str "1.2.3") = false ->
      Py.float_of_str "1.2.3" = Raise ValueError).
Proof. apply (float_accepts_one_dot_and_a_digit "1.2.3"). reflexivity. Defined.

(** ** A well-formed mixgraph line *)

Lemma skip_outside p s : starts_outside p s -> skip p s = s.
Proof. destruct s as [|c s]; [done|]. cbn. by intros ->. Qed.

Lemma span_outside p s : starts_outside p s -> span p s = EmptyString.
Proof. by intros ?%span_empty. Qed.

Lemma outside_app (q p : ascii -> bool) ws s :
  (forall c, q c = true -> p c = false) ->
  Py.all_chars q ws = true -> starts_outside p s ->
  starts_outside p (ws +:+ s).
Proof.
  intros Hqp Hws Hs. destruct ws as [|c ws]; [done|].
  rewrite append_cons. cbn in *. apply andb_prop in Hws as [Hc _]. auto.
Qed.

Lemma outside_nonempty (q p : ascii -> bool) n s :
  (forall c, q c = true -> p c = false) ->
  n <> EmptyString -> Py.all_chars q n = true ->
  starts_outside p (n +:+ s).
Proof.
  intros Hqp Hn Hall. destruct n as [|c n]; [done|].
  rewrite append_cons. cbn in *. apply andb_prop in Hall as [Hc _]. auto.
Qed.

Lemma span_app p a b :
  Py.all_chars p a = true -> span p (a +:+ b) = a +:+ span p b.
Proof.
  induction a as [|c a IH]; [done|]. rewrite !append_cons. simpl.
  intros [-> Ha]%andb_prop. by rewrite IH.
Qed.

Lemma strip_app w s : strip w (w +:+ s) = Some s.
Proof.
  induction w as [|c w IH]; [done|].
  rewrite append_cons. cbn [strip]. by rewrite Ascii.eqb_refl.
Qed.

Lemma space_not_digit_or_dot c : Py.is_space c = true -> digit_or_dot c = false.
Proof. by destruct c as [[] [] [] [] [] [] [] []]. Qed.

Lemma digit_or_dot_not_space c : digit_or_dot c = true -> Py.is_space c = false.
Proof. by destruct c as [[] [] [] [] [] [] [] []]. Qed.

(** A run of white space, then something that does not start with white
    space: skipping the white space leaves that. *)
Lemma skip_spaces ws s :
  Py.all_chars Py.is_space ws = true -> starts_outside Py.is_space s ->
  skip Py.is_space (ws +:+ s) = s.
Proof. intros Hws Hs. rewrite skip_app by done. by apply skip_outside. Qed.

(** A number, then something that does not start with a digit or a dot. *)
Lemma span_number n s :
  Py.all_chars digit_or_dot n = true -> starts_outside digit_or_dot s ->
  span digit_or_dot (n +:+ s) = n /\ skip digit_or_dot (n +:+ s) = s.
Proof.
  intros Hn Hs. rewrite span_app, skip_app by done.
  rewrite span_outside, skip_outside by done. split; [|done].
  clear. induction n as [|c n IH]; [done|]. rewrite append_cons. by rewrite IH.
Qed.

Ltac solve_outside :=
  lazymatch goal with
  | |- starts_outside _ (String _ _ +:+ _) =>
      rewrite append_cons; reflexivity
  | |- starts_outside Py.is_space (_ +:+ _) =>
      apply (outside_nonempty digit_or_dot);
      [apply digit_or_dot_not_space|done|done]
  | |- starts_outside digit_or_dot (_ +:+ _) =>
      apply (outside_app Py.is_space);
      [apply space_not_digit_or_dot|done|solve_outside]
  end.

Lemma scan_metric_line ws1 ws2 ws3 ws4 ws5 ws6 ws7 n1 n2 S rest :
  Py.all_chars Py.is_space ws1 = true -> Py.all_chars Py.is_space ws2 = true ->
  Py.all_chars Py.is_space ws3 = true -> Py.all_chars Py.is_space ws4 = true ->
  Py.all_chars Py.is_space ws5 = true -> Py.all_chars Py.is_space ws6 = true ->
  Py.all_chars Py.is_space ws7 = true ->
  n1 <> EmptyString -> Py.all_chars digit_or_dot n1 = true ->
  n2 <> EmptyString -> Py.all_chars digit_or_dot n2 = true ->
  S <> EmptyString -> Py.all_chars digit_or_dot S = true ->
  scan_metric
    ("mixgraph" +:+ ws1 +:+ ":" +:+ ws2 +:+ n1 +:+ ws3 +:+ "micros/op" +:+ ws4
     +:+ n2 +:+ ws5 +:+ "ops/sec" +:+ ws6 +:+ S +:+ ws7 +:+ "seconds" +:+ rest)
  = Some S.
Proof.
  intros H1 H2 H3 H4 H5 H6 H7 Hn1 Hd1 Hn2 Hd2 HS HdS.
  unfold scan_metric.
  rewrite strip_app. cbn [mbind option_bind].
  rewrite skip_spaces by (done || solve_outside).
  rewrite strip_app. cbn [mbind option_bind].
  rewrite skip_spaces by (done || solve_outside).
  destruct (span_number n1 (ws3 +:+ "micros/op" +:+ ws4 +:+ n2 +:+ ws5
                            +:+ "ops/sec" +:+ ws6 +:+ S +:+ ws7 +:+ "seconds"
                            +:+ rest)) as [-> ->]; [done|solve_outside|].
  rewrite decide_False by done.
  rewrite skip_spaces by (done || solve_outside).
  rewrite strip_app. cbn [mbind option_bind].
  rewrite skip_spaces by (done || solve_outside).
  destruct (span_number n2 (ws5 +:+ "ops/sec" +:+ ws6 +:+ S +:+ ws7
                            +:+ "seconds" +:+ rest)) as [-> ->];
    [done|solve_outside|].
  rewrite decide_False by done.
  rewrite skip_spaces by (done || solve_outside).
  rewrite strip_app. cbn [mbind option_bind].
  rewrite skip_spaces by (done || solve_outside).
  destruct (span_number S (ws7 +:+ "seconds" +:+ rest)) as [-> ->];
    [done|solve_outside|].
  rewrite decide_False by done.
  rewrite skip_spaces by (done || solve_outside). by rewrite strip_app.
Qed.

(** A text that does not start with the word, followed by the word: the
    word does not start at the beginning of the whole. *)
Lemma strip_mixgraph_border b s :
  b <> EmptyString -> strip "mixgraph" b = None ->
  strip "mixgraph" (b +:+ "mixgraph" +:+ s) = None.
Proof.
  intros Hb Hstrip.
  do 8 (destruct b as [|? b];
        [by rewrite ?append_cons, ?append_empty|];
        rewrite append_cons; cbn [strip] in *;
        match goal with
        | |- context [Ascii.eqb ?a ?c] =>
            destruct (Ascii.eqb a c) eqn:?; [|done]
        end).
  done.
Qed.

Lemma seconds_token_after pre s tok :
  occurs "mixgraph" pre = false ->
  scan_metric ("mixgraph" +:+ s) = Some tok ->
  seconds_token (pre +:+ "mixgraph" +:+ s) = Some tok.
Proof.
  intros Hocc Hscan. induction pre as [|c pre IH].
  - rewrite append_empty, seconds_token_unfold. by rewrite Hscan.
  - cbn [occurs] in Hocc.
    destruct (strip "mixgraph" (String c pre)) eqn:Hstrip; [done|].
    rewrite seconds_token_unfold.
    assert (scan_metric (String c pre +:+ "mixgraph" +:+ s) = None) as ->.
    { unfold scan_metric. by rewrite strip_mixgraph_border. }
    rewrite append_cons. by apply IH.
Qed.

(** X15.  The seconds field of the first mixgraph line is what the
    search captures: for a text made of anything without the word
    [mixgraph], then [mixgraph : <n1> micros/op <n2> ops/sec <S> seconds]
    with any amount of white space (also none) between the parts and
    [n1], [n2], [S] nonempty strings of digits and dots, then anything,
    the captured field is [S]. *)
Theorem metric_line_is_extracted
    (pre ws1 ws2 ws3 ws4 ws5 ws6 ws7 n1 n2 S rest : string) :
  occurs "mixgraph" pre = false ->
  Py.all_chars Py.is_space (ws1 +:+ ws2 +:+ ws3 +:+ ws4 +:+ ws5 +:+ ws6 +:+ ws7)
  = true ->
  n1 <> EmptyString -> n2 <> EmptyString -> S <> EmptyString ->
  Py.all_chars digit_or_dot (n1 +:+ n2 +:+ S) = true ->
  seconds_token
    (pre +:+ "mixgraph" +:+ ws1 +:+ ":" +:+ ws2 +:+ n1 +:+ ws3 +:+ "micros/op"
     +:+ ws4 +:+ n2 +:+ ws5 +:+ "ops/sec" +:+ ws6 +:+ S +:+ ws7 +:+ "seconds"
     +:+ rest)
  = Some S.
Proof.
  assert (forall p a b, Py.all_chars p (a +:+ b) = true ->
                        Py.all_chars p a = true /\ Py.all_chars p b = true)
    as Hsplit.
  { intros p a b. induction a as [|c a IH]; [done|].
    rewrite append_cons. cbn. intros [-> H]%andb_prop. by apply IH. }
  intros Hocc Hws Hn1 Hn2 HS Hnum.
  apply Hsplit in Hws as [H1 Hws]. apply Hsplit in Hws as [H2 Hws].
  apply Hsplit in Hws as [H3 Hws]. apply Hsplit in Hws as [H4 Hws].
  apply Hsplit in Hws as [H5 Hws]. apply Hsplit in Hws as [H6 H7].
  apply Hsplit in Hnum as [Hd1 Hnum]. apply Hsplit in Hnum as [Hd2 HdS].
  apply seconds_token_after; [done|]. by apply scan_metric_line.
Qed.

Lemma metric_line_is_extracted_witness :
  seconds_token
    (("Started" +:+ newline) +:+ "mixgraph" +:+ "     " +:+ ":" +:+ "  "
     +:+ "9.708" +:+ " " +:+ "micros/op" +:+ " " +:+ "103004" +:+ " "
     +:+ "ops/sec" +:+ " " +:+ "97.1" +:+ "" +:+ "seconds"
     +:+ " 1000000 operations;")
  = Some "97.1".
Proof.
  apply (metric_line_is_extracted ("Started" +:+ newline) "     " "  " " " " "
           " " " " "" "9.708" "103004" "97.1" " 1000000 operations;");
    solve [vm_compute; reflexivity | discriminate].
Defined.

(** ** From an int to a name and back *)

Lemma digits_value_acc s : forall acc,
  Py.digits_value acc s
  = acc * 10 ^ Z.of_nat (String.length s) + Py.digits_value 0 s.
Proof.
  induction s as [|c s IH]; intros acc; [cbn; lia|].
  cbn [Py.digits_value String.length].
  rewrite (IH (10 * acc + Py.digit_value c)), (IH (10 * 0 + Py.digit_value c)).
  rewrite Nat2Z.inj_succ, Z.pow_succ_r by lia. ring.
Qed.

Lemma pretty_N_char_digit d :
  (d < 10)%N ->
  Py.is_digit (pretty_N_char d) = true
  /\ Py.digit_value (pretty_N_char d) = Z.of_N d.
Proof.
  intros Hd.
  assert (d = 0 \/ d = 1 \/ d = 2 \/ d = 3 \/ d = 4 \/ d = 5 \/ d = 6
          \/ d = 7 \/ d = 8 \/ d = 9)%N as Hcases by lia.
  by repeat (destruct Hcases as [-> | Hcases]; [done|]); subst.
Qed.

Lemma pretty_N_go_digits x : forall s,
  Py.all_digits s = true ->
  Py.all_digits (pretty_N_go x s) = true
  /\ Py.digits_value 0 (pretty_N_go x s)
     = Z.of_N x * 10 ^ Z.of_nat (String.length s) + Py.digits_value 0 s
  /\ ((0 < x)%N -> pretty_N_go x s <> EmptyString).
Proof.
  induction (N.lt_wf_0 x) as [x _ IH]; intros s Hs.
  destruct (decide (x = 0%N)) as [->|Hx].
  - rewrite pretty_N_go_0. split; [done|]. change (Z.of_N 0) with 0.
    split; [lia|intros ?; lia].
  - rewrite pretty_N_go_step by lia.
    destruct (pretty_N_char_digit (x `mod` 10)%N) as [Hd Hv].
    { apply N.mod_lt. lia. }
    destruct (IH (x `div` 10)%N) with (s := String (pretty_N_char (x `mod` 10)) s)
      as (Hall & Hval & Hne).
    { apply N.div_lt; lia. }
    { cbn. by rewrite Hd. }
    split; [done|]. split.
    + rewrite Hval. cbn [String.length Py.digits_value].
      rewrite (digits_value_acc s (10 * 0 + _)), Hv.
      rewrite Nat2Z.inj_succ, Z.pow_succ_r by lia.
      rewrite (N.div_mod x 10) at 3 by lia.
      rewrite N2Z.inj_add, N2Z.inj_mul. change (Z.of_N 10) with 10. ring.
    + intros _. destruct (decide (0 < x `div` 10)%N) as [Hpos|Hzero].
      * by apply Hne.
      * assert (x `div` 10 = 0)%N as -> by (by apply N.le_0_r, N.nlt_ge).
        by rewrite pretty_N_go_0.
Qed.

Lemma str_of_int_digits n :
  0 <= n ->
  Py.str_of_int n <> EmptyString
  /\ Py.all_digits (Py.str_of_int n) = true
  /\ Py.digits_value 0 (Py.str_of_int n) = n.
Proof.
  intros Hn. unfold Py.str_of_int, pretty, pretty_Z.
  destruct n as [|p|p]; [done| |lia].
  unfold pretty, pretty_positive, pretty, pretty_N.
  rewrite decide_False by done.
  destruct (pretty_N_go_digits (N.pos p) "" eq_refl) as (Hall & Hval & Hne).
  split; [by apply Hne|]. split; [done|]. rewrite Hval. cbn. lia.
Qed.

(** X16.  From a cache size to a file name and back: the name
    [exp_<n>_<mode>.txt], with [n] a natural number written in decimal
    as [str] writes it and [mode] one of [sw], [hw], is accepted and
    gives the key [(n, mode)]. *)
Theorem name_of_cache_size_round_trip (n : Z) (mode : string) :
  0 <= n -> mode = "sw" \/ mode = "hw" ->
  key_of ("exp_" +:+ Py.str_of_int n +:+ "_" +:+ mode +:+ ".txt")
  = Some (n, mode).
Proof.
  intros Hn Hmode.
  destruct (str_of_int_digits n Hn) as (Hne & Hall & Hval).
  unfold key_of.
  pose proof (filename_fields_sound (Py.str_of_int n) mode EmptyString
                Hne Hall Hmode (or_introl eq_refl)) as Hf.
  rewrite append_empty_r in Hf. rewrite Hf. cbn. by rewrite Hval.
Qed.

Lemma name_of_cache_size_round_trip_witness :
  key_of ("exp_" +:+ Py.str_of_int 1048576 +:+ "_" +:+ "hw" +:+ ".txt")
  = Some (1048576, "hw").
Proof.
  apply (name_of_cache_size_round_trip 1048576 "hw"); [lia|by right].
Defined.

(** ** The linear mode *)


Section LinearOutcome.
Variable T : experiment_table.



End LinearOutcome.


(** ** Tick labels *)

Lemma span_digits n s :
  Py.all_digits n = true -> starts_outside Py.is_digit s ->
  span Py.is_digit (n +:+ s) = n /\ skip Py.is_digit (n +:+ s) = s.
Proof.
  intros Hn Hs. rewrite span_app, skip_app by done.
  rewrite span_outside, skip_outside by done. split; [|done].
  clear. induction n as [|c n IH]; [done|]. rewrite append_cons. by rewrite IH.
Qed.

Lemma label_parts n suffix :
  0 <= n -> starts_outside Py.is_digit suffix ->
  span Py.is_digit (Py.str_of_int n +:+ suffix) = Py.str_of_int n
  /\ skip Py.is_digit (Py.str_of_int n +:+ suffix) = suffix.
Proof.
  intros Hn Hs. apply span_digits; [|done].
  by apply str_of_int_digits.
Qed.

(** X18.  Which cache sizes get the same tick label: two cache sizes
    below 2^20 only when they are equal, two cache sizes from 2^20 on
    exactly when they have the same number of whole mebibytes, and a
    cache size below 2^20 never shares its label with one from 2^20
    on. *)
Theorem tick_labels_coincide (C C' : Z) :
  0 <= C -> 0 <= C' ->
  (cache_size_label C = cache_size_label C' <->
   (C < 1048576 /\ C = C')
   \/ (1048576 <= C /\ 1048576 <= C' /\ C `div` 1048576 = C' `div` 1048576)).
Proof.
  intros HC HC'. unfold cache_size_label. change (1024 * 1024) with 1048576.
  assert (0 <= C `div` 1048576) as Hq by (apply Z.div_pos; lia).
  assert (0 <= C' `div` 1048576) as Hq' by (apply Z.div_pos; lia).
  assert (starts_outside Py.is_digit "MB") as HMB by done.
  assert (starts_outside Py.is_digit "B") as HB by done.
  destruct (label_parts _ "MB" Hq HMB) as [Hs1 Hk1].
  destruct (label_parts _ "MB" Hq' HMB) as [Hs2 Hk2].
  destruct (label_parts _ "B" HC HB) as [Hs3 Hk3].
  destruct (label_parts _ "B" HC' HB) as [Hs4 Hk4].
  destruct (1048576 <=? C) eqn:Hle, (1048576 <=? C') eqn:Hle';
    rewrite ?Z.leb_le, ?Z.leb_gt in Hle, Hle'.
  - split.
    + intros Heq. right. split; [done|]. split; [done|].
      apply (f_equal (span Py.is_digit)) in Heq.
      rewrite Hs1, Hs2 in Heq. by apply (inj pretty) in Heq.
    + intros [[? _] | (_ & _ & ->)]; [lia|done].
  - split; [|intros [[? ->] | (_ & ? & _)]; lia].
    intros Heq. apply (f_equal (skip Py.is_digit)) in Heq.
    by rewrite Hk1, Hk4 in Heq.
  - split; [|intros [[? ->] | (? & _ & _)]; lia].
    intros Heq. apply (f_equal (skip Py.is_digit)) in Heq.
    by rewrite Hk3, Hk2 in Heq.
  - split.
    + intros Heq. left. split; [done|].
      apply (f_equal (span Py.is_digit)) in Heq.
      rewrite Hs3, Hs4 in Heq. by apply (inj pretty) in Heq.
    + intros [[_ ->] | (? & _ & _)]; [done|lia].
Qed.

Lemma tick_labels_coincide_witness :
  cache_size_label 1048576 = cache_size_label 2097151 <->
  (1048576 < 1048576 /\ 1048576 = 2097151)
  \/ (1048576 <= 1048576 /\ 1048576 <= 2097151
      /\ 1048576 `div` 1048576 = 2097151 `div` 1048576).
Proof. apply (tick_labels_coincide 1048576 2097151); lia. Defined.

(** ** The log of the collector *)

Lemma file_log_events output_dir entry :
  Forall is_file_event (file_log output_dir entry)
  /\ length (filter is_print (file_log output_dir entry)) = 1%nat.
Proof.
  unfold file_log. destruct (key_of entry.1) as [[c m]|]; [|by repeat constructor].
  destruct entry.2 as [content|e]; [|by repeat constructor].
  destruct (seconds_token content) as [tok|]; [|by repeat constructor].
  destruct (Py.float_of_str tok); by repeat constructor.
Qed.

Lemma scan_events output_dir (dir : listing) :
  Forall is_file_event (concat (file_log output_dir <$> dir))
  /\ length (filter is_print (concat (file_log output_dir <$> dir)))
     = length dir.
Proof.
  induction dir as [|entry dir [IH1 IH2]]; [by split|].
  destruct (file_log_events output_dir entry) as [H1 H2].
  cbn [fmap list_fmap concat]. split; [by apply Forall_app|].
  rewrite filter_app, length_app, H2, IH2. done.
Qed.

Lemma elem_of_concat {A} (x : A) (ls : list (list A)) :
  x ∈ concat ls <-> exists l, x ∈ l /\ l ∈ ls.
Proof.
  induction ls as [|l ls IH]; cbn [concat].
  - split; [by intros ?%elem_of_nil|by intros (? & _ & ?%elem_of_nil)].
  - rewrite elem_of_app, IH. split.
    + intros [H | (l' & H1 & H2)]; [exists l; split; [done|left]|].
      exists l'. split; [done|by right].
    + intros (l' & H1 & [-> | H2]%elem_of_cons); [by left|].
      right. by exists l'.
Qed.

(** X19.  The log of the collector accounts for every directory entry:
    it prints exactly one line per entry; the line
    [Skipping unrecognized file format] names exactly the listed names
    the file-name pattern rejects, and the line
    [Could not find mixgraph run time] names exactly the matched,
    readable files whose text does not contain the metric pattern. *)
Theorem collector_prints_one_line_per_entry (output_dir : string)
    (dir : listing) :
  length (filter is_print (trace (parse_experiment_files output_dir dir)))
  = length dir
  /\ (forall filename,
        Print (MsgSkipping filename)
        ∈ trace (parse_experiment_files output_dir dir) <->
        filename ∈ dir.*1 /\ filename_fields filename = None)
  /\ (forall filename,
        Print (MsgNoRunTime filename)
        ∈ trace (parse_experiment_files output_dir dir) <->
        exists content,
          (filename, Ok content) ∈ dir
          /\ is_Some (filename_fields filename)
          /\ seconds_token content = None).
Proof.
  rewrite parse_experiment_files_eq. cbn [trace].
  split; [apply scan_events|]. split.
  - intros filename. rewrite elem_of_concat. split.
    + intros (l & Hin & (entry & -> & Hentry)%list_elem_of_fmap).
      unfold file_log, key_of in Hin.
      destruct (filename_fields entry.1) as [[d m]|] eqn:Hf; cbn in Hin.
      * exfalso. apply elem_of_cons in Hin as [[=] | Hin].
        destruct entry.2 as [content|e];
          [destruct (seconds_token content) as [tok|];
           [destruct (Py.float_of_str tok)|]|];
          by apply list_elem_of_singleton in Hin.
      * apply list_elem_of_singleton in Hin as [= ->].
        split; [|done]. apply list_elem_of_fmap. by exists entry.
    + intros [(entry & -> & Hentry)%list_elem_of_fmap Hf].
      exists (file_log output_dir entry).
      split; [|apply list_elem_of_fmap; by exists entry].
      unfold file_log, key_of. rewrite Hf. cbn. left.
  - intros filename. rewrite elem_of_concat. split.
    + intros (l & Hin & (entry & -> & Hentry)%list_elem_of_fmap).
      unfold file_log, key_of in Hin. destruct entry as [name f].
      cbn [fst snd] in Hin.
      destruct (filename_fields name) as [[d m]|] eqn:Hf; cbn in Hin.
      * apply elem_of_cons in Hin as [[=] | Hin].
        destruct f as [content|e];
          [destruct (seconds_token content) as [tok|] eqn:Htok;
           [destruct (Py.float_of_str tok)|]|];
          apply list_elem_of_singleton in Hin; try done.
        injection Hin as ->. exists content. by rewrite Hf.
      * by apply list_elem_of_singleton in Hin.
    + intros (content & Hentry & [[d m] Hf] & Htok).
      exists (file_log output_dir (filename, Ok content)).
      split; [|apply list_elem_of_fmap; by eexists].
      unfold file_log, key_of. cbn [fst snd]. rewrite Hf, Htok. cbn.
      right. left.
Qed.

(** ** The closing lines of the program *)

Lemma file_event_not (e : event) (l : list event) :
  is_file_event e = false -> Forall is_file_event l -> e ∉ l.
Proof.
  intros He Hl Hin. eapply Forall_forall in Hl; [|done].
  rewrite He in Hl. done.
Qed.

Lemma print_not (e : event) (l : list event) :
  is_print e = false -> Forall is_print l -> e ∉ l.
Proof.
  intros He Hl Hin. eapply Forall_forall in Hl; [|done].
  rewrite He in Hl. done.
Qed.

Lemma progress_not (e : event) (l : list event) :
  is_progress e = false -> Forall is_progress l -> e ∉ l.
Proof.
  intros He Hl Hin. eapply Forall_forall in Hl; [|done].
  rewrite He in Hl. done.
Qed.

Lemma log2_loop_progress libm_log2 T :
  Forall is_progress (trace (delta_series_log2 libm_log2 T)).
Proof.
  apply (for_each_trace_Forall is_progress), log2_step_progress.
Qed.

(** The trace of the program on a directory with a matched name. *)
Lemma main_trace libm_log2 dir :
  collected dir <> ∅ ->
  exists scan loop,
    Forall is_file_event scan /\ Forall is_progress loop
    /\ trace (main libm_log2 (Some dir))
       = (Print MsgParsing :: scan) ++ Print MsgPlotting :: loop
         ++ if forallb loggable (complete_keys (collected dir))
            then
              (if bool_decide (complete_keys (collected dir) = [])
               then [Print MsgNoComplete]
               else log2_chart
                      (Py.log2_positive libm_log2
                         <$> complete_keys (collected dir))
                      (omap (delta (collected dir))
                         (sorted_keys (collected dir)))
                      (cache_size_label <$> complete_keys (collected dir)))
              ++ [Print MsgDone]
            else [].
Proof.
  intros Hne. exists (concat (file_log OUTPUT_DIR <$> dir)),
    (trace (delta_series_log2 libm_log2 (collected dir))).
  split; [apply scan_events|]. split; [apply log2_loop_progress|].
  rewrite main_some. cbv zeta.
  rewrite <- map_size_empty_iff in Hne. apply Nat.eqb_neq in Hne. rewrite Hne.
  cbn [trace]. f_equal. f_equal.
  destruct (plot_log2_spec libm_log2 (collected dir)) as [_ Hplot].
  cbv zeta in Hplot. rewrite Hplot. clear Hplot.
  pose proof (plot_log2_outcome libm_log2 (collected dir)) as Hout.
  pose proof (delta_series_log2_spec libm_log2 (collected dir)) as Hspec.
  destruct (forallb loggable (complete_keys (collected dir))) eqn:Hall.
  - destruct (complete_keys (collected dir)) as [|c ck]; cbn [trace outcome].
    + by rewrite <- app_assoc.
    + rewrite bool_decide_eq_false_2 by done. by rewrite <- app_assoc.
  - cbn [trace outcome].
    destruct (outcome (delta_series_log2 libm_log2 (collected dir)))
      as [acc|e] eqn:Hloop.
    + destruct Hspec as [Hok _].
      assert (forallb loggable (complete_keys (collected dir)) = true) as Hall'.
      { apply forallb_forall. intros c Hc%list_elem_of_In.
        by eapply Forall_forall in Hok. }
      congruence.
    + by rewrite (bind_raise _ _ _ Hloop).
Qed.

Lemma main_outcome_ok libm_log2 dir :
  outcome (main libm_log2 (Some dir)) = Ok tt <->
  forallb loggable (complete_keys (collected dir)) = true.
Proof.
  rewrite main_outcome.
  pose proof (delta_series_log2_spec libm_log2 (collected dir)) as Hspec.
  destruct (outcome (delta_series_log2 libm_log2 (collected dir))) as [acc|e].
  - destruct Hspec as [Hok _]. split; [|done]. intros _.
    apply forallb_forall. intros c Hc%list_elem_of_In.
    by eapply Forall_forall in Hok.
  - split; [done|]. intros Hall. rewrite forallb_forall in Hall.
    apply Exists_exists in Hspec as (c & Hc & Hlog).
    rewrite (Hall c) in Hlog; [done|]. by apply list_elem_of_In.
Qed.

Lemma closing_elem (e : event) (scan loop tail : list event) :
  is_file_event e = false -> is_progress e = false ->
  e <> Print MsgParsing -> e <> Print MsgPlotting ->
  Forall is_file_event scan -> Forall is_progress loop ->
  e ∈ (Print MsgParsing :: scan) ++ Print MsgPlotting :: loop ++ tail <->
  e ∈ tail.
Proof.
  intros He1 He2 He3 He4 Hscan Hloop.
  rewrite elem_of_app, !elem_of_cons, elem_of_app.
  pose proof (file_event_not e scan He1 Hscan).
  pose proof (progress_not e loop He2 Hloop).
  tauto.
Qed.

(** X20.  The closing lines of the program on an existing directory.
    [Done.] is printed exactly when some name matched and the program
    returns normally; [No complete data to plot.] exactly when some name
    matched and no cache size has both run times; and
    [Plot saved as absolute_iaa_speedup.png] exactly when [plt.savefig]
    was called with that name. *)
Theorem closing_lines (libm_log2 : float -> float) (dir : listing) :
  (Print MsgDone ∈ trace (main libm_log2 (Some dir)) <->
   matched_names dir <> [] /\ outcome (main libm_log2 (Some dir)) = Ok tt)
  /\ (Print MsgNoComplete ∈ trace (main libm_log2 (Some dir)) <->
      matched_names dir <> [] /\ complete_keys (collected dir) = [])
  /\ (Print (MsgPlotSaved plot_filename) ∈ trace (main libm_log2 (Some dir)) <->
      Plt (Savefig plot_filename) ∈ trace (main libm_log2 (Some dir))).
Proof.
  rewrite matched_names_nil, main_outcome_ok.
  destruct (decide (collected dir = ∅)) as [Hempty|Hne].
  - rewrite main_some. cbv zeta. rewrite Hempty. cbn [trace].
    change (size (∅ : experiment_table) =? 0)%nat with true. cbv iota.
    pose proof (proj1 (scan_events OUTPUT_DIR dir)) as Hscan.
    assert (forall e, is_file_event e = false -> e <> Print MsgParsing ->
                      e <> Print MsgNoValidData ->
                      e ∉ (Print MsgParsing :: concat (file_log OUTPUT_DIR <$> dir))
                          ++ [Print MsgNoValidData]) as Hnot.
    { intros e He1 He2 He3.
      rewrite elem_of_app, elem_of_cons, list_elem_of_singleton.
      pose proof (file_event_not e _ He1 Hscan). tauto. }
    split; [|split]; (split; [intros Hin|]).
    + by apply Hnot in Hin.
    + by intros [? _].
    + by apply Hnot in Hin.
    + by intros [? _].
    + by apply Hnot in Hin.
    + intros Hin. by apply Hnot in Hin.
  - destruct (main_trace libm_log2 dir Hne) as (scan & loop & Hscan & Hloop & ->).
    rewrite !closing_elem by done.
    destruct (forallb loggable (complete_keys (collected dir))) eqn:Hall.
    + destruct (complete_keys (collected dir)) as [|c ck].
      * rewrite bool_decide_eq_true_2 by done. cbn [app].
        rewrite !elem_of_cons, !elem_of_nil. split; [|split].
        -- split; [done|]. intros _. right. by left.
        -- split; [done|]. intros _. by left.
        -- split; intros [[=] | [[=] | []]].
      * rewrite bool_decide_eq_false_2 by done. unfold log2_chart. cbn [app].
        rewrite !elem_of_cons, !elem_of_nil. split; [|split].
        -- split; [done|]. intros _. do 12 right. by left.
        -- split; [|by intros [_ [=]]].
           intros H. exfalso.
           repeat (destruct H as [[=] | H]); done.
        -- split; intros _; [do 9 right|do 10 right]; by left.
    + rewrite !elem_of_nil. split; [|split]; [|split; [done|]|done].
      * split; [done|]. by intros [_ [=]].
      * intros [_ Hck]. by rewrite Hck in Hall.
Qed.
